(** * linedb: a line-record database backed by a plain text file

    Shallow embedding of [linedb/linedb.go] and the properties of its codec
    ([loadFromFile], [saveToFile]) and of its operations ([Open], [Record],
    [Length], [All], [Select], [Insert], [Update], [Delete]).

    Conventions of the embedding:
    - a Go [int] is a [Z]; every comparison and [number-1] is done on values
      that the preceding checks keep between [-1] and [len(records)+1], so no
      wrap-around can occur and none is written out;
    - a Go [string] is a [string] of the Standard Library (a sequence of
      bytes), a [[]string] is a [list string];
    - a computation that may panic at run time (index or slice out of range,
      negative capacity) has type [go A]: [None] is the panic;
    - a Go [error] value is an [option error], [None] being [nil];
    - the pointer receiver [db *Database] is passed in and returned (state
      passing); the file system is passed in and returned the same way. *)

From Stdlib Require Import ZArith List String Ascii Bool Lia DecimalString.
From Stdlib Require Import Sorted.
Import ListNotations.

Open Scope Z_scope.

(** ** The Go run time: panicking accesses *)

Module Go.

Definition go (A : Type) : Type := option A.

Definition ret {A : Type} (a : A) : go A := Some a.

Definition bind {A B : Type} (m : go A) (k : A -> go B) : go B :=
  match m with
  | Some a => k a
  | None => None
  end.

Definition len {A : Type} (s : list A) : Z := Z.of_nat (List.length s).

(** [s[i]]: panics unless [0 <= i < len(s)]. *)
Definition index {A : Type} (s : list A) (i : Z) : go A :=
  if (0 <=? i) && (i <? len s) then nth_error s (Z.to_nat i) else None.

(** [s[i] = v]: panics unless [0 <= i < len(s)]. *)
Definition assign {A : Type} (s : list A) (i : Z) (v : A) : go (list A) :=
  if (0 <=? i) && (i <? len s)
  then Some (firstn (Z.to_nat i) s ++ v :: skipn (S (Z.to_nat i)) s)
  else None.

(** [s[lo:hi]]: Go panics unless [0 <= lo <= hi <= cap(s)].  The embedding
    asks for [hi <= len(s)], which is at least as strict, because the
    capacity of a slice is never below its length. *)
Definition slice {A : Type} (s : list A) (lo hi : Z) : go (list A) :=
  if (0 <=? lo) && (lo <=? hi) && (hi <=? len s)
  then Some (firstn (Z.to_nat (hi - lo)) (skipn (Z.to_nat lo) s))
  else None.

(** [s[lo:]], that is [s[lo:len(s)]]. *)
Definition slice_from {A : Type} (s : list A) (lo : Z) : go (list A) :=
  slice s lo (len s).

(** [make([]T, n, c)]: panics when the length or the capacity is negative or
    the length exceeds the capacity; the elements are zero values. *)
Definition make {A : Type} (zero : A) (n c : Z) : go (list A) :=
  if (0 <=? n) && (n <=? c) then Some (repeat zero (Z.to_nat n)) else None.

(** [for i := range s { body }], the body working on a state [S] and being
    able to panic; [continue] is the body returning its state unchanged. *)
Fixpoint range_from {S : Type} (body : Z -> S -> go S) (i : Z) (n : nat)
    (st : S) : go S :=
  match n with
  | O => Some st
  | S n' => bind (body i st) (range_from body (i + 1) n')
  end.

Definition range {A S : Type} (s : list A) (body : Z -> S -> go S) (st : S)
    : go S :=
  range_from body 0 (List.length s) st.

(** The verb [%d] of package fmt. *)
Definition fmt_d (n : Z) : string := NilZero.string_of_int (Z.to_int n).

End Go.

Import Go.

Notation "x <- m ;; k" := (bind m (fun x => k))
  (at level 61, m at next level, right associativity).

(** ** Package strings, for a separator of one byte *)

Module strings.

(** [strings.Split(s, sep)] for a one-byte [sep]: the substrings between the
    separators; a string without separator, the empty one included, gives the
    one-element slice holding it. *)
Fixpoint Split (s : string) (sep : ascii) : list string :=
  match s with
  | EmptyString => [EmptyString]
  | String c s' =>
      if Ascii.eqb c sep then EmptyString :: Split s' sep
      else match Split s' sep with
           | [] => [String c EmptyString]
           | h :: t => String c h :: t
           end
  end.

(** [strings.Join(elems, sep)] for a one-byte [sep]. *)
Fixpoint Join (elems : list string) (sep : ascii) : string :=
  match elems with
  | [] => EmptyString
  | e :: rest =>
      match rest with
      | [] => e
      | _ :: _ => String.append e (String sep (Join rest sep))
      end
  end.

(** [strings.Count(s, sep)] for a one-byte [sep]. *)
Fixpoint Count (s : string) (sep : ascii) : nat :=
  match s with
  | EmptyString => O
  | String c s' => if Ascii.eqb c sep then S (Count s' sep) else Count s' sep
  end.

(** [strings.Contains(s, sep)] for a one-byte [sep]. *)
Fixpoint Contains (s : string) (sep : ascii) : bool :=
  match s with
  | EmptyString => false
  | String c s' => Ascii.eqb c sep || Contains s' sep
  end.

(** The loop of [genSplit] when at most [k] more separators may be cut at:
    once [k] is used up, the rest of the string is the last element. *)
Fixpoint splitn (s : string) (sep : ascii) (k : nat) : list string :=
  match s with
  | EmptyString => [EmptyString]
  | String c s' =>
      match k with
      | O => [s]
      | S k' =>
          if Ascii.eqb c sep then EmptyString :: splitn s' sep k'
          else match splitn s' sep k with
               | [] => [String c EmptyString]
               | h :: t => String c h :: t
               end
      end
  end.

(** [strings.SplitN(s, sep, n)] for a one-byte [sep]: nil for [n == 0], all
    the substrings for [n < 0], at most [n] substrings for [n > 0], the last
    one being the unsplit remainder. *)
Definition SplitN (s : string) (sep : ascii) (n : Z) : list string :=
  if n =? 0 then []
  else if n <? 0 then Split s sep
  else splitn s sep (Z.to_nat (n - 1)).

End strings.

(** ** Package os: one file system, reads and writes of whole files *)

Module os.

Inductive errno : Type := ENOENT | EACCES | EIO.

Record file : Type := mkfile {
  data : string;
  readable : bool;
  writable : bool
}.

Inductive syscall : Type :=
| SysRead (name : string)
| SysWrite (name : string) (bytes : string)
| SysChmod (name : string).

(** The file system: the files by name, the calls made so far (latest
    first), and the faults of the device: [faults name = Some k] when a write
    to the file stops with an error once [k] bytes are written ([k] at or
    above the length of the data: the bytes are all written and the error
    comes at the close). *)
Record World : Type := mkWorld {
  files : string -> option file;
  calls : list syscall;
  faults : string -> option nat
}.

Definition put (fs : string -> option file) (name : string) (f : file)
    : string -> option file :=
  fun n => if String.eqb n name then Some f else fs n.

(** [os.ReadFile(name)]. *)
Definition ReadFile (name : string) (w : World)
    : (string * option errno) * World :=
  let w' := mkWorld (files w) (SysRead name :: calls w) (faults w) in
  match files w name with
  | None => (EmptyString, Some ENOENT, w')
  | Some f =>
      if readable f then (data f, None, w')
      else (EmptyString, Some EACCES, w')
  end.

(** The [OpenFile(name, O_WRONLY|O_CREATE|O_TRUNC, perm)] of
    [os.WriteFile]: the permission bits the opened file has, or [None] when
    the file exists and may not be written.  A file that does not exist is
    created with the permission bits asked for. *)
Definition open_for_writing (name : string) (perm_r perm_w : bool) (w : World)
    : option (bool * bool) :=
  match files w name with
  | None => Some (perm_r, perm_w)
  | Some f => if writable f then Some (readable f, true) else None
  end.

(** [os.WriteFile(name, data, perm)]: it opens the file, which truncates it,
    writes the data and closes the file.  When the open fails the file is as
    it was; when the device fails after the open, the file holds the bytes
    written until then, a prefix of the data, and the error is returned. *)
Definition WriteFile (name : string) (bytes : string) (perm_r perm_w : bool)
    (w : World) : option errno * World :=
  let cs := SysWrite name bytes :: calls w in
  match open_for_writing name perm_r perm_w w with
  | None => (Some EACCES, mkWorld (files w) cs (faults w))
  | Some (r, wr) =>
      match faults w name with
      | None =>
          (None,
           mkWorld (put (files w) name (mkfile bytes r wr)) cs (faults w))
      | Some k =>
          (Some EIO,
           mkWorld (put (files w) name (mkfile (substring 0 k bytes) r wr))
                   cs (faults w))
      end
  end.

(** [os.Chmod(name, mode)] on an existing file; the mode is reduced to the
    owner's read and write bits. *)
Definition Chmod (name : string) (r wr : bool) (w : World) : World :=
  match files w name with
  | None => w
  | Some f =>
      mkWorld (put (files w) name (mkfile (data f) r wr))
              (SysChmod name :: calls w) (faults w)
  end.

(** The device changes: from now on a write to the file stops after [k]
    bytes ([fault = Some k]), or goes through ([fault = None]). *)
Definition SetFault (name : string) (fault : option nat) (w : World) : World :=
  mkWorld (files w) (calls w)
          (fun n => if String.eqb n name then fault else faults w n).

(** The content of a file, when it exists. *)
Definition content (w : World) (name : string) : option string :=
  option_map data (files w name).

End os.

(** ** Package linedb *)

Module linedb.

Import strings.

(** The record separator, ['\n']. *)
Definition sep : ascii := "010"%char.

(** The error values the package builds with [fmt.Errorf]. *)
Inductive error : Type :=
| ErrNoRecords
| ErrOutOfBounds (number lower upper : Z)
| ErrLoad (filePath : string) (cause : os.errno)
| ErrSave (filePath : string) (cause : os.errno).

Definition errno_string (name : string) (op : string) (e : os.errno)
    : string :=
  (op ++ " " ++ name ++ ": " ++
   match e with
   | os.ENOENT => "no such file or directory"
   | os.EACCES => "permission denied"
   | os.EIO => "input/output error"
   end)%string.

(** [err.Error()]. *)
Definition Error (e : error) : string :=
  match e with
  | ErrNoRecords => "no records in database"
  | ErrOutOfBounds number lower upper =>
      ("record number (" ++ fmt_d number ++ ") out of bounds [" ++
       fmt_d lower ++ ", " ++ fmt_d upper ++ "]")%string
  | ErrLoad p c =>
      ("cannot open linedb backing file " ++ p ++ ": " ++
       errno_string p "open" c)%string
  | ErrSave p c =>
      ("cannot save linedb backing file " ++ p ++ ": " ++
       errno_string p "open" c)%string
  end.

Record Database : Type := mkDatabase {
  filePath : string;
  records : list string
}.

Record Rec : Type := mkRec {
  Number : Z;
  Text : string
}.

(** The codec inside [loadFromFile] and [saveToFile]. *)
Definition decode (buf : string) : list string :=
  if (String.length buf =? 0)%nat then [] else Split buf sep.

Definition encode (records : list string) : string := Join records sep.

Definition loadFromFile (filePath : string) (w : os.World)
    : (list string * option error) * os.World :=
  match os.ReadFile filePath w with
  | (_, Some err, w') => ([], Some (ErrLoad filePath err), w')
  | (buf, None, w') => (decode buf, None, w')
  end.

Definition saveToFile (filePath : string) (records : list string)
    (w : os.World) : option error * os.World :=
  match os.WriteFile filePath (encode records) false false w with
  | (Some err, w') => (Some (ErrSave filePath err), w')
  | (None, w') => (None, w')
  end.

(** [Open]: the handle is [None] (the nil pointer) when loading fails. *)
Definition Open (filePath : string) (w : os.World)
    : (option Database * option error) * os.World :=
  match loadFromFile filePath w with
  | (_, Some err, w') => (None, Some err, w')
  | (records, None, w') => (Some (mkDatabase filePath records), None, w')
  end.

Definition Length (db : Database) : Z := len (records db).

Definition checkEmpty (db : Database) : option error :=
  if Length db =? 0 then Some ErrNoRecords else None.

Definition checkBounds (db : Database) (lower number : Z) : option error :=
  let numberOfRecords := Length db in
  if (number <? lower) || (number >? numberOfRecords)
  then Some (ErrOutOfBounds number lower numberOfRecords)
  else None.

Definition Record (db : Database) (number : Z) : go (string * option error) :=
  match checkEmpty db with
  | Some err => ret (EmptyString, Some err)
  | None =>
      match checkBounds db 1 number with
      | Some err => ret (EmptyString, Some err)
      | None =>
          r <- index (records db) (number - 1) ;;
          ret (r, None)
      end
  end.

Definition All (db : Database) : go (list Rec) :=
  records0 <- make (mkRec 0 EmptyString) (Length db) (Length db) ;;
  range (records db)
    (fun i recs =>
       r <- index (records db) i ;;
       assign recs i (mkRec (i + 1) r))
    records0.

Definition Select (db : Database) (filter : Rec -> bool) : go (list Rec) :=
  range (records db)
    (fun i res =>
       r <- index (records db) i ;;
       if filter (mkRec (i + 1) r)
       then r' <- index (records db) i ;; ret (res ++ [mkRec (i + 1) r'])
       else ret res)
    [].

Definition Insert (db : Database) (number : Z) (record : string)
    (w : os.World) : go (option error * Database * os.World) :=
  match checkBounds db 0 number with
  | Some err => ret (Some err, db, w)
  | None =>
      (* special case: inserting empty record on an empty database *)
      if (Length db =? 0) && String.eqb record EmptyString
      then ret (None, db, w)
      else if number =? 0 then
        (* special case: end of file *)
        let newRecords := records db ++ [record] in
        match saveToFile (filePath db) newRecords w with
        | (Some err, w') => ret (Some err, db, w')
        | (None, w') =>
            ret (None, mkDatabase (filePath db) newRecords, w')
        end
      else
        (* general case *)
        newRecords <- make EmptyString 0 (Length db + 1) ;;
        before <- slice (records db) 0 (number - 1) ;;
        let newRecords := newRecords ++ before in
        let newRecords := newRecords ++ [record] in
        after <- slice_from (records db) (number - 1) ;;
        let newRecords := newRecords ++ after in
        match saveToFile (filePath db) newRecords w with
        | (Some err, w') => ret (Some err, db, w')
        | (None, w') =>
            ret (None, mkDatabase (filePath db) newRecords, w')
        end
  end.

Definition Update (db : Database) (number : Z) (record : string)
    (w : os.World) : go ((string * option error) * Database * os.World) :=
  r <- Record db number ;;
  match r with
  | (_, Some err) => ret ((EmptyString, Some err), db, w)
  | (old, None) =>
      records1 <- assign (records db) (number - 1) record ;;
      let db1 := mkDatabase (filePath db) records1 in
      match saveToFile (filePath db1) (records db1) w with
      | (Some err, w') =>
          records2 <- assign (records db1) (number - 1) old ;;
          ret ((EmptyString, Some err), mkDatabase (filePath db1) records2, w')
      | (None, w') => ret ((old, None), db1, w')
      end
  end.

Definition Delete (db : Database) (number : Z) (w : os.World)
    : go ((string * option error) * Database * os.World) :=
  r <- Record db number ;;
  match r with
  | (_, Some err) => ret ((EmptyString, Some err), db, w)
  | (old, None) =>
      newRecords0 <- make EmptyString 0 (Length db - 1) ;;
      newRecords <-
        range (records db)
          (fun i acc =>
             if i =? number - 1 then ret acc
             else r <- index (records db) i ;; ret (acc ++ [r]))
          newRecords0 ;;
      match saveToFile (filePath db) newRecords w with
      | (Some err, w') => ret ((EmptyString, Some err), db, w')
      | (None, w') =>
          ret ((old, None), mkDatabase (filePath db) newRecords, w')
      end
  end.

End linedb.

Import linedb.

(** ** Package assertive *)

Module assertive.

(** The interface [miniT]; the variadic arguments are the one string that
    [Want] and [Need] pass. *)
Class miniT (T : Type) : Type := {
  Error : T -> string -> T;
  Fatal : T -> string -> T;
  Helper : T -> T
}.

(** What [runtime.CallersFrames] tells about a caller. *)
Record Frame : Type := mkFrame {
  File : string;
  Line : Z
}.

(** [getLine].  [caller] is what [runtime.Callers(3, pc)] finds for a [pc] of
    length one: [None] when it returns [n < 1], the frame otherwise. *)
Definition getLine {T : Type} `{miniT T} (t : T) (caller : option Frame)
    (w : os.World) : go (string * T * os.World) :=
  let t := Helper t in
  match caller with
  | None => ret ("[ERROR OBTAINING CALLER FRAME]"%string, t, w)
  | Some frame =>
      match os.ReadFile (File frame) w with
      | (_, Some err, w') => ret ("[ERROR READING SOURCE FILE]"%string, t, w')
      | (text, None, w') =>
          let parts := strings.SplitN text "010"%char (Line frame + 1) in
          line <- index parts (Line frame - 1) ;;
          ret (line, t, w')
      end
  end.

Definition Want {T : Type} `{miniT T} (t : T) (condition : bool)
    (caller : option Frame) (w : os.World) : go (T * os.World) :=
  let t := Helper t in
  if negb condition then
    r <- getLine t caller w ;;
    let '(line, t, w') := r in
    ret (Error t line, w')
  else ret (t, w).

Definition Need {T : Type} `{miniT T} (t : T) (condition : bool)
    (caller : option Frame) (w : os.World) : go (T * os.World) :=
  let t := Helper t in
  if negb condition then
    r <- getLine t caller w ;;
    let '(line, t, w') := r in
    ret (Fatal t line, w')
  else ret (t, w).

(** The [fakeT] of the package's tests: it records what it is told. *)
Record fakeT : Type := mkfakeT {
  logs : list string;
  stop : bool
}.

#[global] Instance fakeT_miniT : miniT fakeT := {
  Error t line := mkfakeT (logs t ++ [line]) (stop t);
  Fatal t line := mkfakeT (logs t ++ [line]) true;
  Helper t := t
}.

End assertive.

(** Whether [os.WriteFile] on this name will go through: the file can be
    opened for writing and the device has no fault for it. *)
Definition can_write (w : os.World) (name : string) : bool :=
  match os.files w name with
  | None => true
  | Some f => os.writable f
  end
  && match os.faults w name with
     | None => true
     | Some _ => false
     end.

(** The error of an [os.WriteFile] that does not go through. *)
Definition write_failure (w : os.World) (name : string) : os.errno :=
  match os.open_for_writing name false false w with
  | None => os.EACCES
  | Some _ => os.EIO
  end.

(** ** What the loops compute *)

(** The records paired with their numbers, counting from [k]. *)
Fixpoint numbered (k : Z) (l : list string) : list Rec :=
  match l with
  | [] => []
  | text :: l' => mkRec k text :: numbered (k + 1) l'
  end.

(** The elements of [l], which start at index [i], without the one at index
    [k]. *)
Fixpoint without (k i : Z) (l : list string) : list string :=
  match l with
  | [] => []
  | r :: l' => if i =? k then without k (i + 1) l' else r :: without k (i + 1) l'
  end.

(** Two ways a mutating call can end: nothing has changed, in memory or in
    any file; or the new sequence is in memory and in the backing file.  (A
    call whose write fails after the open ends in neither: the records in
    memory are kept and the backing file is not.) *)
Definition unchanged (db : Database) (w : os.World) (db' : Database)
    (w' : os.World) : Prop :=
  db' = db /\ os.files w' = os.files w.

Definition committed (db : Database) (new : list string) (db' : Database)
    (w' : os.World) : Prop :=
  db' = mkDatabase (filePath db) new
  /\ os.content w' (filePath db) = Some (encode new).

(** The backing file holds the encoding of the records in memory. *)
Definition consistent (db : Database) (w : os.World) : Prop :=
  os.content w (filePath db) = Some (encode (records db)).

(** ** The states of a handle

    A handle is created by [Open] and then used through [Insert], [Update]
    and [Delete], whether they succeed or fail; in between, the permissions
    of the backing file and the faults of the device may change.  Nothing
    else writes the backing file.
    [valid] is what the caller promises about the texts handed over. *)

Inductive reachable (valid : string -> Prop) : Database -> os.World -> Prop :=
| reach_Open : forall path w0 db w,
    Open path w0 = (Some db, None, w) ->
    reachable valid db w
| reach_Insert : forall db w number text err db' w',
    reachable valid db w ->
    valid text ->
    Insert db number text w = Some (err, db', w') ->
    reachable valid db' w'
| reach_Update : forall db w number text res db' w',
    reachable valid db w ->
    valid text ->
    Update db number text w = Some (res, db', w') ->
    reachable valid db' w'
| reach_Delete : forall db w number res db' w',
    reachable valid db w ->
    Delete db number w = Some (res, db', w') ->
    reachable valid db' w'
| reach_Chmod : forall db w r wr,
    reachable valid db w ->
    reachable valid db (os.Chmod (filePath db) r wr w)
| reach_Fault : forall db w fault,
    reachable valid db w ->
    reachable valid db (os.SetFault (filePath db) fault w).

(** Any text at all, and a text without the record separator. *)
Definition any_text (text : string) : Prop := True.

Definition no_separator (text : string) : Prop :=
  strings.Contains text sep = false.

(** A world holding one readable and writable file ["db"], and the handle
    that [Open] returns on it. *)
Definition world_of (cont : string) : os.World :=
  os.mkWorld (os.put (fun _ => None) "db" (os.mkfile cont true true)) []
             (fun _ => None).

Definition db_of (cont : string) : Database := mkDatabase "db" (decode cont).

(** The same world after the [os.ReadFile] of [Open]. *)
Definition opened (cont : string) : os.World :=
  snd (Open "db" (world_of cont)).

(** The same again after [os.Chmod(filePath, 0400)]: the backing file can
    still be read and can no longer be written. *)
Definition readonly (cont : string) : os.World :=
  os.Chmod "db" true false (opened cont).

(** The opened world on a device that fails once [k] bytes are written. *)
Definition faulty (cont : string) (k : nat) : os.World :=
  os.SetFault "db" (Some k) (opened cont).

(** The content ["ln1\nln2"] of the test tables. *)
Definition two_lines : string := "ln1" ++ String sep "ln2".

(** A source file of three lines, the second being the call
    ["\tWant(ft, 11 == 12)"] of the package's tests, the file system holding
    it, and the frame of that call. *)
Definition want_line : string := String "009" "Want(ft, 11 == 12)".

Definition test_source : string :=
  "func TestWantFailed(t *testing.T) {"
  ++ String "010" (want_line ++ String "010" "}").

Definition source_world : os.World :=
  os.mkWorld
    (os.put (fun _ => None) "assertive_test.go"
       (os.mkfile test_source true true)) [] (fun _ => None).

Definition caller_frame : assertive.Frame :=
  assertive.mkFrame "assertive_test.go" 2.

(** The position at which [Insert(number, ...)] puts the new record in a
    store of [n] records. *)
Definition inserted_position (n number : Z) : Z :=
  if number =? 0 then n + 1 else number.

(** ** The scenarios of the package's test tables *)

Section Scenarios.

Let nl : string := String sep EmptyString.

Example open_world_of (cont : string) :
  Open "db" (world_of cont) = (Some (db_of cont), None, opened cont)
  /\ reachable any_text (db_of cont) (opened cont).
Proof.
  split; [reflexivity|].
  apply (reach_Open any_text "db" (world_of cont)). reflexivity.
Qed.

Example index_past_the_end : index ["ln1"%string] 1 = None.
Proof. reflexivity. Qed.

Example decode_three_lines :
  decode ("ln1" ++ nl ++ "ln2" ++ nl ++ "ln3") = ["ln1"; "ln2"; "ln3"]%string.
Proof. reflexivity. Qed.

Example record_empty :
  Record (db_of "") 1 = Some (EmptyString, Some ErrNoRecords)
  /\ Error ErrNoRecords = "no records in database"%string.
Proof. split; reflexivity. Qed.

Example record_oneline_2 :
  exists e, Record (db_of "ln1") 2 = Some (EmptyString, Some e)
            /\ Error e = "record number (2) out of bounds [1, 1]"%string.
Proof. eexists; split; reflexivity. Qed.

Example record_twolines_2 :
  Record (db_of ("ln1" ++ nl ++ "ln2")) 2 = Some ("ln2"%string, None).
Proof. reflexivity. Qed.

Example insert_outofbounds1 :
  exists e w, Insert (db_of "") (-1) "" (world_of "") = Some (Some e, db_of "", w)
              /\ Error e = "record number (-1) out of bounds [0, 0]"%string.
Proof. do 2 eexists; split; reflexivity. Qed.

Example insert_insertempty :
  exists db w, Insert (db_of "") 0 "text" (world_of "") = Some (None, db, w)
               /\ Length db = 1 /\ os.content w "db" = Some "text"%string.
Proof. do 2 eexists; repeat split; reflexivity. Qed.

Example insert_insert1empty1 :
  exists db w, Insert (db_of " ") 1 "text" (world_of " ") = Some (None, db, w)
               /\ Length db = 2
               /\ os.content w "db" = Some ("text" ++ nl ++ " ")%string.
Proof. do 2 eexists; repeat split; reflexivity. Qed.

Example insert_insert2 :
  exists db w,
    Insert (db_of ("ln1" ++ nl ++ "ln2" ++ nl ++ "ln3")) 2 "text"
           (world_of ("ln1" ++ nl ++ "ln2" ++ nl ++ "ln3"))
    = Some (None, db, w)
    /\ Length db = 4
    /\ os.content w "db"
       = Some ("ln1" ++ nl ++ "text" ++ nl ++ "ln2" ++ nl ++ "ln3")%string.
Proof. do 2 eexists; repeat split; reflexivity. Qed.

Example update_update2 :
  exists db w,
    Update (db_of ("ln1" ++ nl ++ "ln2" ++ nl ++ "ln3")) 2 "new"
           (world_of ("ln1" ++ nl ++ "ln2" ++ nl ++ "ln3"))
    = Some (("ln2"%string, None), db, w)
    /\ os.content w "db" = Some ("ln1" ++ nl ++ "new" ++ nl ++ "ln3")%string.
Proof. do 2 eexists; repeat split; reflexivity. Qed.

Example delete_delete2 :
  exists db w,
    Delete (db_of ("ln1" ++ nl ++ "ln2" ++ nl ++ "ln3")) 2
           (world_of ("ln1" ++ nl ++ "ln2" ++ nl ++ "ln3"))
    = Some (("ln2"%string, None), db, w)
    /\ Length db = 2
    /\ os.content w "db" = Some ("ln1" ++ nl ++ "ln3")%string.
Proof. do 2 eexists; repeat split; reflexivity. Qed.

Example delete_one2empty :
  exists db w,
    Delete (db_of "ln1") 1 (world_of "ln1") = Some (("ln1"%string, None), db, w)
    /\ Length db = 0 /\ os.content w "db" = Some EmptyString.
Proof. do 2 eexists; repeat split; reflexivity. Qed.

Example select_test5 :
  Select (db_of ("ln1" ++ nl ++ "line21" ++ nl ++ "ln3" ++ nl ++ "line22"
                 ++ nl ++ "ln5"))
         (fun r => (4 <? Z.of_nat (String.length (Text r))))
  = Some [mkRec 2 "line21"; mkRec 4 "line22"].
Proof. reflexivity. Qed.

Example all_twolines :
  All (db_of ("ln1" ++ nl ++ "ln2")) = Some [mkRec 1 "ln1"; mkRec 2 "ln2"].
Proof. reflexivity. Qed.

End Scenarios.

(** ** Splitting and joining *)

Section SplitJoin.

Import strings.

Variable c : ascii.

Lemma Split_not_nil (s : string) : Split s c <> [].
Proof.
  destruct s as [|a s]; simpl; [discriminate|].
  destruct (Ascii.eqb a c); [discriminate|].
  destruct (Split s c); discriminate.
Qed.

Lemma Split_length (s : string) : List.length (Split s c) = S (Count s c).
Proof.
  induction s as [|a s IH]; simpl; [reflexivity|].
  destruct (Ascii.eqb a c); simpl.
  - now rewrite IH.
  - destruct (Split s c) as [|h t] eqn:E; [now apply Split_not_nil in E|].
    exact IH.
Qed.

Lemma Join_cons_cons (e e' : string) (rest : list string) :
  Join (e :: e' :: rest) c = String.append e (String c (Join (e' :: rest) c)).
Proof. reflexivity. Qed.

Lemma Join_Split (s : string) : Join (Split s c) c = s.
Proof.
  induction s as [|a s IH]; [reflexivity|].
  cbn [Split]. destruct (Ascii.eqb a c) eqn:Eac.
  - apply Ascii.eqb_eq in Eac; subst a.
    destruct (Split s c) as [|h t] eqn:E; [now apply Split_not_nil in E|].
    rewrite Join_cons_cons, IH. reflexivity.
  - destruct (Split s c) as [|h t] eqn:E; [now apply Split_not_nil in E|].
    destruct t as [|h' t].
    + simpl in IH. simpl. now rewrite IH.
    + rewrite Join_cons_cons in *. cbn [String.append]. now rewrite IH.
Qed.

Lemma Split_no_sep (s : string) : Contains s c = false -> Split s c = [s].
Proof.
  induction s as [|a s IH]; simpl; [reflexivity|].
  intros H. apply orb_false_iff in H as [Ha Hs].
  rewrite Ha, (IH Hs). reflexivity.
Qed.

Lemma Split_append_sep (e t : string) :
  Contains e c = false ->
  Split (String.append e (String c t)) c = e :: Split t c.
Proof.
  induction e as [|a e IH]; simpl; intros H.
  - now rewrite Ascii.eqb_refl.
  - apply orb_false_iff in H as [Ha He].
    rewrite Ha, (IH He). reflexivity.
Qed.

Lemma Split_Join (l : list string) :
  Forall (fun r => Contains r c = false) l -> l <> [] ->
  Split (Join l c) c = l.
Proof.
  induction l as [|e rest IH]; intros Hf Hne; [congruence|].
  inversion Hf as [|? ? He Hrest]; subst.
  destruct rest as [|e' rest].
  - simpl. now apply Split_no_sep.
  - rewrite Join_cons_cons, Split_append_sep by assumption.
    f_equal. apply IH; [assumption|discriminate].
Qed.

Lemma Split_Forall_no_sep (s : string) :
  Forall (fun r => Contains r c = false) (Split s c).
Proof.
  induction s as [|a s IH]; simpl.
  - repeat constructor.
  - destruct (Ascii.eqb a c) eqn:Eac.
    + constructor; [reflexivity|assumption].
    + destruct (Split s c) as [|h t]; [repeat constructor; simpl; now rewrite Eac|].
      inversion IH; subst. constructor; [simpl; now rewrite Eac|assumption].
Qed.

Lemma Join_empty_string (l : list string) :
  Join l c = EmptyString -> l = [] \/ l = [EmptyString].
Proof.
  destruct l as [|e [|e' rest]]; simpl; intros H; auto.
  - subst; auto.
  - destruct e; discriminate.
Qed.

Lemma Count_append (s t : string) :
  Count (String.append s t) c = (Count s c + Count t c)%nat.
Proof.
  induction s as [|a s IH]; simpl; [reflexivity|].
  destruct (Ascii.eqb a c); simpl; now rewrite IH.
Qed.

Lemma Count_no_sep (s : string) : Contains s c = false -> Count s c = O.
Proof.
  induction s as [|a s IH]; simpl; [reflexivity|].
  intros H. apply orb_false_iff in H as [Ha Hs]. rewrite Ha. auto.
Qed.

Lemma Count_Join (l : list string) :
  Forall (fun r => Contains r c = false) l ->
  Count (Join l c) c = pred (List.length l).
Proof.
  induction l as [|e rest IH]; intros Hf; [reflexivity|].
  inversion Hf as [|? ? He Hrest]; subst.
  destruct rest as [|e' rest].
  - simpl. now apply Count_no_sep.
  - rewrite Join_cons_cons, Count_append. cbn [Count].
    rewrite Ascii.eqb_refl, (Count_no_sep _ He), (IH Hrest). reflexivity.
Qed.

End SplitJoin.

(** ** The codec *)

Lemma length_zero_eqb (s : string) :
  (String.length s =? 0)%nat = true <-> s = EmptyString.
Proof.
  destruct s; simpl; split; intros H; try reflexivity; discriminate.
Qed.

Lemma decode_empty : decode EmptyString = [].
Proof. reflexivity. Qed.

Lemma decode_nonempty (buf : string) :
  buf <> EmptyString -> decode buf = strings.Split buf sep.
Proof.
  intros H. unfold decode.
  destruct (String.length buf =? 0)%nat eqn:E; [|reflexivity].
  apply length_zero_eqb in E. contradiction.
Qed.

Lemma encode_decode (buf : string) : encode (decode buf) = buf.
Proof.
  unfold decode, encode.
  destruct (String.length buf =? 0)%nat eqn:E.
  - apply length_zero_eqb in E. now subst.
  - apply Join_Split.
Qed.

Lemma decode_no_separator (buf : string) : Forall no_separator (decode buf).
Proof.
  unfold decode. destruct (String.length buf =? 0)%nat; [constructor|].
  apply Split_Forall_no_sep.
Qed.

Lemma decode_encode (x : list string) :
  Forall no_separator x -> x <> [EmptyString] -> decode (encode x) = x.
Proof.
  intros Hf Hne. unfold decode, encode.
  destruct (String.length (strings.Join x sep) =? 0)%nat eqn:E.
  - apply length_zero_eqb in E. apply Join_empty_string in E as [->| ->];
      [reflexivity|congruence].
  - apply Split_Join; [exact Hf|].
    intros ->. discriminate.
Qed.

(** ** Accesses that stay in range *)

Section InRange.

Context {A : Type}.

Lemma len_app (s t : list A) : len (s ++ t) = len s + len t.
Proof. unfold len. rewrite length_app. lia. Qed.

Lemma len_cons (a : A) (s : list A) : len (a :: s) = len s + 1.
Proof. unfold len. cbn [List.length]. lia. Qed.

Lemma len_nonneg (s : list A) : 0 <= len s.
Proof. unfold len. lia. Qed.

Lemma len_zero (s : list A) : len s = 0 -> s = [].
Proof. destruct s; [reflexivity|unfold len; simpl; lia]. Qed.

Lemma index_in_range (s : list A) (i : Z) :
  0 <= i < len s -> exists x, index s i = Some x /\ nth_error s (Z.to_nat i) = Some x.
Proof.
  intros H. unfold index.
  replace ((0 <=? i) && (i <? len s)) with true
    by (symmetry; apply andb_true_iff; split; [apply Z.leb_le|apply Z.ltb_lt]; lia).
  destruct (nth_error s (Z.to_nat i)) as [x|] eqn:E; [eauto|].
  apply nth_error_None in E. unfold len in H. lia.
Qed.

Lemma index_out_of_range (s : list A) (i : Z) :
  i < 0 \/ len s <= i -> index s i = None.
Proof.
  intros H. unfold index.
  destruct (0 <=? i) eqn:E1; [|reflexivity].
  destruct (i <? len s) eqn:E2; [|reflexivity].
  apply Z.leb_le in E1. apply Z.ltb_lt in E2. lia.
Qed.

Lemma index_middle (pre suf : list A) (a : A) :
  index (pre ++ a :: suf) (len pre) = Some a.
Proof.
  unfold index. rewrite len_app.
  replace ((0 <=? len pre) && (len pre <? len pre + len (a :: suf))) with true.
  - unfold len. rewrite Nat2Z.id, nth_error_app2, Nat.sub_diag by lia.
    reflexivity.
  - symmetry; apply andb_true_iff; split; [apply Z.leb_le|apply Z.ltb_lt];
      unfold len; simpl; lia.
Qed.

Lemma assign_middle (pre suf : list A) (a v : A) :
  assign (pre ++ a :: suf) (len pre) v = Some (pre ++ v :: suf).
Proof.
  unfold assign. rewrite len_app.
  replace ((0 <=? len pre) && (len pre <? len pre + len (a :: suf))) with true.
  - unfold len. rewrite Nat2Z.id.
    rewrite firstn_app, Nat.sub_diag, firstn_all, firstn_O, app_nil_r.
    rewrite skipn_app, skipn_all2 by lia.
    replace (S (List.length pre) - List.length pre)%nat with 1%nat by lia.
    reflexivity.
  - symmetry; apply andb_true_iff; split; [apply Z.leb_le|apply Z.ltb_lt];
      unfold len; simpl; lia.
Qed.

Lemma split_at (s : list A) (i : Z) :
  0 <= i < len s ->
  exists pre a suf, s = pre ++ a :: suf /\ len pre = i.
Proof.
  intros H. destruct (index_in_range s i H) as [x [_ Hx]].
  apply nth_error_split in Hx as [pre [suf [-> Hl]]].
  exists pre, x, suf. split; [reflexivity|]. unfold len. lia.
Qed.

Lemma slice_prefix (pre suf : list A) :
  slice (pre ++ suf) 0 (len pre) = Some pre.
Proof.
  unfold slice. rewrite len_app.
  replace ((0 <=? 0) && (0 <=? len pre) && (len pre <=? len pre + len suf))
    with true.
  - rewrite Z.sub_0_r. unfold len. rewrite Nat2Z.id. simpl.
    rewrite firstn_app, Nat.sub_diag, firstn_all, firstn_O, app_nil_r.
    reflexivity.
  - symmetry. rewrite !andb_true_iff. repeat split; apply Z.leb_le;
      unfold len; lia.
Qed.

Lemma slice_from_suffix (pre suf : list A) :
  slice_from (pre ++ suf) (len pre) = Some suf.
Proof.
  unfold slice_from, slice. rewrite len_app.
  replace ((0 <=? len pre) && (len pre <=? len pre + len suf)
           && (len pre + len suf <=? len pre + len suf)) with true.
  - replace (len pre + len suf - len pre) with (len suf) by lia.
    unfold len. rewrite !Nat2Z.id.
    rewrite skipn_app, skipn_all, Nat.sub_diag, skipn_O, firstn_all.
    reflexivity.
  - symmetry. rewrite !andb_true_iff. repeat split; apply Z.leb_le;
      unfold len; lia.
Qed.

Lemma make_empty (zero : A) (cap : Z) : 0 <= cap -> make zero 0 cap = Some [].
Proof.
  intros H. unfold make.
  replace ((0 <=? 0) && (0 <=? cap)) with true; [reflexivity|].
  symmetry. apply andb_true_iff. split; apply Z.leb_le; lia.
Qed.

Lemma make_full (zero : A) (s : list string) :
  make zero (len s) (len s) = Some (repeat zero (List.length s)).
Proof.
  unfold make.
  replace ((0 <=? len s) && (len s <=? len s)) with true.
  - unfold len. now rewrite Nat2Z.id.
  - symmetry. apply andb_true_iff. split; apply Z.leb_le; unfold len; lia.
Qed.

End InRange.

(** ** The loops of [All], [Select] and [Delete] *)

Lemma numbered_app (k : Z) (l l' : list string) :
  numbered k (l ++ l') = numbered k l ++ numbered (k + len l) l'.
Proof.
  revert k. induction l as [|a l IH]; intros k; cbn [app numbered].
  - unfold len; simpl. now rewrite Z.add_0_r.
  - rewrite IH. do 3 f_equal. unfold len; cbn [List.length]. lia.
Qed.

Lemma numbered_length (k : Z) (l : list string) :
  List.length (numbered k l) = List.length l.
Proof. revert k. induction l; intros k; simpl; auto. Qed.

Lemma numbered_len (k : Z) (l : list string) : len (numbered k l) = len l.
Proof. unfold len. now rewrite numbered_length. Qed.

Lemma numbered_nth (l : list string) (k : Z) (i : nat) :
  nth_error (numbered k l) i
  = option_map (mkRec (k + Z.of_nat i)) (nth_error l i).
Proof.
  revert k i. induction l as [|a l IH]; intros k [|i]; simpl; try reflexivity.
  - now rewrite Z.add_0_r.
  - rewrite IH. do 2 f_equal. lia.
Qed.

Lemma All_loop (s : list string) (zero : Rec) :
  forall suf pre, s = pre ++ suf ->
  range_from (fun i recs => r <- index s i ;; assign recs i (mkRec (i + 1) r))
             (len pre) (List.length suf)
             (numbered 1 pre ++ repeat zero (List.length suf))
  = Some (numbered 1 s).
Proof.
  induction suf as [|a suf IH]; intros pre Hs.
  - simpl. subst s. now rewrite !app_nil_r.
  - cbn [range_from List.length repeat].
    rewrite Hs at 1. rewrite index_middle. cbn [bind].
    rewrite <- (numbered_len 1 pre) at 1. rewrite assign_middle. cbn [bind].
    specialize (IH (pre ++ [a])). rewrite len_app in IH.
    rewrite numbered_app in IH. cbn [numbered] in IH.
    rewrite <- !app_assoc in IH. cbn [app] in IH.
    replace (len [a]) with 1 in IH by reflexivity.
    rewrite (Z.add_comm 1 (len pre)) in IH. apply IH. exact Hs.
Qed.

Lemma Select_loop (s : list string) (filter : Rec -> bool) :
  forall suf pre res, s = pre ++ suf ->
  range_from
    (fun i res =>
       r <- index s i ;;
       if filter (mkRec (i + 1) r)
       then r' <- index s i ;; ret (res ++ [mkRec (i + 1) r'])
       else ret res)
    (len pre) (List.length suf) res
  = Some (res ++ List.filter filter (numbered (len pre + 1) suf)).
Proof.
  induction suf as [|a suf IH]; intros pre res Hs.
  - simpl. now rewrite app_nil_r.
  - cbn [range_from List.length numbered List.filter].
    rewrite Hs at 1. rewrite index_middle. cbn [bind].
    specialize (IH (pre ++ [a])). rewrite len_app in IH.
    replace (len [a]) with 1 in IH by reflexivity.
    destruct (filter (mkRec (len pre + 1) a)).
    + rewrite Hs at 1. rewrite index_middle. cbn [bind ret].
      rewrite IH by (rewrite <- app_assoc; exact Hs).
      now rewrite <- app_assoc.
    + cbn [ret bind]. apply IH. rewrite <- app_assoc; exact Hs.
Qed.

Lemma Delete_loop (s : list string) (k : Z) :
  forall suf pre acc, s = pre ++ suf ->
  range_from
    (fun i acc =>
       if i =? k then ret acc
       else r <- index s i ;; ret (acc ++ [r]))
    (len pre) (List.length suf) acc
  = Some (acc ++ without k (len pre) suf).
Proof.
  induction suf as [|a suf IH]; intros pre acc Hs.
  - simpl. now rewrite app_nil_r.
  - cbn [range_from List.length without].
    specialize (IH (pre ++ [a])). rewrite len_app in IH.
    replace (len [a]) with 1 in IH by reflexivity.
    destruct (len pre =? k).
    + cbn [ret bind]. apply IH. rewrite <- app_assoc; exact Hs.
    + rewrite Hs at 1. rewrite index_middle. cbn [bind ret].
      rewrite IH by (rewrite <- app_assoc; exact Hs).
      now rewrite <- app_assoc.
Qed.

Lemma without_before (k i : Z) (l : list string) :
  k < i -> without k i l = l.
Proof.
  revert i. induction l as [|a l IH]; intros i H; simpl; [reflexivity|].
  destruct (i =? k) eqn:E; [apply Z.eqb_eq in E; lia|].
  f_equal. apply IH. lia.
Qed.

Lemma without_middle (pre suf : list string) (a : string) (i : Z) :
  without (i + len pre) i (pre ++ a :: suf) = pre ++ suf.
Proof.
  revert i. induction pre as [|b pre IH]; intros i.
  - unfold len; simpl. rewrite Z.add_0_r, Z.eqb_refl.
    apply without_before. lia.
  - cbn [app without].
    destruct (i =? i + len (b :: pre)) eqn:E.
    + apply Z.eqb_eq in E. unfold len in E. cbn [List.length] in E. lia.
    + f_equal. specialize (IH (i + 1)).
      replace (i + len (b :: pre)) with (i + 1 + len pre)
        by (unfold len; cbn [List.length]; lia).
      exact IH.
Qed.

(** ** The checks *)

Lemma checkEmpty_empty (db : Database) :
  Length db = 0 -> checkEmpty db = Some ErrNoRecords.
Proof. intros H. unfold checkEmpty. now rewrite H. Qed.

Lemma checkEmpty_nonempty (db : Database) :
  Length db <> 0 -> checkEmpty db = None.
Proof.
  intros H. unfold checkEmpty.
  destruct (Length db =? 0) eqn:E; [apply Z.eqb_eq in E; contradiction|].
  reflexivity.
Qed.

Lemma checkBounds_inside (db : Database) (lower number : Z) :
  lower <= number <= Length db -> checkBounds db lower number = None.
Proof.
  intros H. unfold checkBounds.
  destruct (number <? lower) eqn:E1; [apply Z.ltb_lt in E1; lia|].
  destruct (number >? Length db) eqn:E2; [|reflexivity].
  apply Z.gtb_lt in E2. lia.
Qed.

Lemma checkBounds_outside (db : Database) (lower number : Z) :
  number < lower \/ number > Length db ->
  checkBounds db lower number
  = Some (ErrOutOfBounds number lower (Length db)).
Proof.
  intros H. unfold checkBounds.
  destruct (number <? lower) eqn:E1; [reflexivity|].
  destruct (number >? Length db) eqn:E2; [reflexivity|].
  apply Z.ltb_ge in E1. rewrite Z.gtb_ltb in E2. apply Z.ltb_ge in E2. lia.
Qed.

Lemma Length_nonneg (db : Database) : 0 <= Length db.
Proof. apply len_nonneg. Qed.

Lemma Database_eta (db : Database) : mkDatabase (filePath db) (records db) = db.
Proof. now destruct db. Qed.

(** ** Writing the backing file *)

Lemma content_put (fs : string -> option os.file) (name : string) (f : os.file)
    (cs : list os.syscall) (fl : string -> option nat) :
  os.content (os.mkWorld (os.put fs name f) cs fl) name = Some (os.data f).
Proof. unfold os.content, os.put. simpl. now rewrite String.eqb_refl. Qed.

Lemma saveToFile_done (p : string) (rs : list string) (w : os.World) :
  can_write w p = true ->
  exists w', saveToFile p rs w = (None, w')
             /\ os.content w' p = Some (encode rs)
             /\ os.calls w' = os.SysWrite p (encode rs) :: os.calls w.
Proof.
  unfold can_write, saveToFile, os.WriteFile, os.open_for_writing.
  intros H. apply andb_true_iff in H as [Hw Hf].
  destruct (os.faults w p); [discriminate|].
  destruct (os.files w p) as [f|].
  - rewrite Hw. eexists. split; [reflexivity|]. split; [|reflexivity].
    apply content_put.
  - eexists. split; [reflexivity|]. split; [|reflexivity].
    apply content_put.
Qed.

Lemma saveToFile_failed (p : string) (rs : list string) (w : os.World) :
  can_write w p = false ->
  saveToFile p rs w
  = (Some (ErrSave p (write_failure w p)), snd (saveToFile p rs w)).
Proof.
  unfold can_write, write_failure, saveToFile, os.WriteFile,
    os.open_for_writing.
  intros H.
  destruct (os.files w p) as [f|]; [destruct (os.writable f)|];
    destruct (os.faults w p); try discriminate; reflexivity.
Qed.

(** A write that fails at the open leaves every file as it was. *)
Lemma saveToFile_not_writable (p : string) (rs : list string) (w : os.World)
    (f : os.file) :
  os.files w p = Some f -> os.writable f = false ->
  saveToFile p rs w
  = (Some (ErrSave p os.EACCES),
     os.mkWorld (os.files w) (os.SysWrite p (encode rs) :: os.calls w)
                (os.faults w)).
Proof.
  unfold saveToFile, os.WriteFile, os.open_for_writing. intros Hf Hw.
  now rewrite Hf, Hw.
Qed.

Lemma saveToFile_cases (p : string) (rs : list string) (w : os.World) :
  (exists w', saveToFile p rs w = (None, w')
              /\ os.content w' p = Some (encode rs))
  \/ (exists e w', saveToFile p rs w = (Some (ErrSave p e), w')).
Proof.
  destruct (can_write w p) eqn:E.
  - left. destruct (saveToFile_done p rs w E) as [w' [H1 [H2 _]]]. eauto.
  - right. rewrite (saveToFile_failed p rs w E). eauto.
Qed.

(** ** The operations on a position that the checks accept *)

Section Positions.

Variables (p : string) (pre suf : list string).

Lemma Record_at (old : string) :
  Record (mkDatabase p (pre ++ old :: suf)) (len pre + 1) = Some (old, None).
Proof.
  unfold Record.
  rewrite checkEmpty_nonempty, checkBounds_inside.
  - cbn [records]. replace (len pre + 1 - 1) with (len pre) by lia.
    now rewrite index_middle.
  - unfold Length; cbn [records]. rewrite len_app, len_cons.
    pose proof (len_nonneg pre). pose proof (len_nonneg suf). lia.
  - unfold Length; cbn [records]. rewrite len_app, len_cons.
    pose proof (len_nonneg pre). pose proof (len_nonneg suf). lia.
Qed.

Lemma Update_at (old record : string) (w : os.World) :
  Update (mkDatabase p (pre ++ old :: suf)) (len pre + 1) record w
  = Some (match saveToFile p (pre ++ record :: suf) w with
          | (Some err, w') =>
              ((EmptyString, Some err), mkDatabase p (pre ++ old :: suf), w')
          | (None, w') =>
              ((old, None), mkDatabase p (pre ++ record :: suf), w')
          end).
Proof.
  unfold Update. rewrite Record_at. cbn [bind records filePath].
  replace (len pre + 1 - 1) with (len pre) by lia.
  rewrite assign_middle. cbn [bind records filePath].
  destruct (saveToFile p (pre ++ record :: suf) w) as [[err|] w'].
  - now rewrite assign_middle.
  - reflexivity.
Qed.

Lemma Delete_at (old : string) (w : os.World) :
  Delete (mkDatabase p (pre ++ old :: suf)) (len pre + 1) w
  = Some (match saveToFile p (pre ++ suf) w with
          | (Some err, w') =>
              ((EmptyString, Some err), mkDatabase p (pre ++ old :: suf), w')
          | (None, w') => ((old, None), mkDatabase p (pre ++ suf), w')
          end).
Proof.
  unfold Delete. rewrite Record_at. cbn [bind records filePath].
  rewrite make_empty.
  2:{ unfold Length; cbn [records]. rewrite len_app, len_cons.
      pose proof (len_nonneg pre). pose proof (len_nonneg suf). lia. }
  cbn [bind]. unfold range.
  pose proof (Delete_loop (pre ++ old :: suf) (len pre + 1 - 1)
                (pre ++ old :: suf) [] [] eq_refl) as HL.
  change (len []) with 0 in HL. rewrite HL. cbn [bind app].
  replace (len pre + 1 - 1) with (0 + len pre) by lia.
  rewrite without_middle.
  destruct (saveToFile p (pre ++ suf) w) as [[err|] w']; reflexivity.
Qed.

Lemma Insert_at (record : string) (w : os.World) :
  suf <> [] ->
  Insert (mkDatabase p (pre ++ suf)) (len pre + 1) record w
  = Some (match saveToFile p (pre ++ record :: suf) w with
          | (Some err, w') => (Some err, mkDatabase p (pre ++ suf), w')
          | (None, w') => (None, mkDatabase p (pre ++ record :: suf), w')
          end).
Proof.
  intros Hsuf. unfold Insert.
  assert (Hlen : 1 <= len suf).
  { destruct suf as [|a l]; [congruence|]. rewrite len_cons.
    pose proof (len_nonneg l). lia. }
  pose proof (len_nonneg pre) as Hpre.
  rewrite checkBounds_inside
    by (unfold Length; cbn [records]; rewrite len_app; lia).
  replace (Length (mkDatabase p (pre ++ suf)) =? 0) with false
    by (symmetry; apply Z.eqb_neq; unfold Length; cbn [records];
        rewrite len_app; lia).
  cbn [andb].
  replace (len pre + 1 =? 0) with false by (symmetry; apply Z.eqb_neq; lia).
  rewrite make_empty by (unfold Length; cbn [records]; rewrite len_app; lia).
  cbn [bind records filePath].
  replace (len pre + 1 - 1) with (len pre) by lia.
  rewrite slice_prefix, slice_from_suffix. cbn [bind app].
  rewrite <- app_assoc. cbn [app].
  destruct (saveToFile p (pre ++ record :: suf) w) as [[err|] w']; reflexivity.
Qed.

End Positions.

Lemma Insert_at_end (db : Database) (record : string) (w : os.World) :
  Length db <> 0 \/ record <> EmptyString ->
  Insert db 0 record w
  = Some (match saveToFile (filePath db) (records db ++ [record]) w with
          | (Some err, w') => (Some err, db, w')
          | (None, w') =>
              (None, mkDatabase (filePath db) (records db ++ [record]), w')
          end).
Proof.
  intros H. unfold Insert.
  rewrite checkBounds_inside by (pose proof (Length_nonneg db); lia).
  replace ((Length db =? 0) && String.eqb record EmptyString) with false.
  - cbn [Z.eqb].
    destruct (saveToFile (filePath db) (records db ++ [record]) w)
      as [[err|] w']; reflexivity.
  - symmetry. apply andb_false_iff. destruct H as [H|H].
    + left. now apply Z.eqb_neq.
    + right. now apply String.eqb_neq.
Qed.

Lemma Insert_noop (db : Database) (w : os.World) :
  Length db = 0 -> Insert db 0 EmptyString w = Some (None, db, w).
Proof.
  intros H. unfold Insert.
  rewrite checkBounds_inside by lia. now rewrite H.
Qed.

Lemma Insert_outside (db : Database) (number : Z) (record : string)
    (w : os.World) :
  number < 0 \/ number > Length db ->
  Insert db number record w
  = Some (Some (ErrOutOfBounds number 0 (Length db)), db, w).
Proof. intros H. unfold Insert. now rewrite checkBounds_outside. Qed.

Lemma Record_empty (db : Database) (number : Z) :
  Length db = 0 -> Record db number = Some (EmptyString, Some ErrNoRecords).
Proof. intros H. unfold Record. now rewrite checkEmpty_empty. Qed.

Lemma Record_outside (db : Database) (number : Z) :
  Length db <> 0 -> number < 1 \/ number > Length db ->
  Record db number
  = Some (EmptyString, Some (ErrOutOfBounds number 1 (Length db))).
Proof.
  intros H1 H2. unfold Record.
  now rewrite checkEmpty_nonempty, checkBounds_outside.
Qed.

(** A position that the checks of [Record] accept splits the records. *)
Lemma position_split (db : Database) (number : Z) :
  1 <= number <= Length db ->
  exists pre old suf,
    db = mkDatabase (filePath db) (pre ++ old :: suf) /\ number = len pre + 1.
Proof.
  intros H. destruct (split_at (records db) (number - 1)) as [pre [a [suf [E L]]]].
  - unfold Length in H. lia.
  - exists pre, a, suf. split; [|lia]. rewrite <- E. symmetry. apply Database_eta.
Qed.

(** ** How a mutating call ends *)

Lemma Insert_cases (db : Database) (number : Z) (text : string)
    (w : os.World) (err : option error) (db' : Database) (w' : os.World) :
  Insert db number text w = Some (err, db', w') ->
  db' = db
  \/ (err = None
      /\ exists pre suf, records db = pre ++ suf
                         /\ committed db (pre ++ text :: suf) db' w').
Proof.
  intros H.
  destruct (Z_lt_le_dec number 0) as [Hlo|Hlo];
    [|destruct (Z_lt_le_dec (Length db) number) as [Hhi|Hhi]].
  - rewrite Insert_outside in H by lia. inversion H; subst. left. reflexivity.
  - rewrite Insert_outside in H by lia. inversion H; subst. left. reflexivity.
  - destruct (Z.eq_dec number 0) as [->|Hn].
    + destruct (Z.eq_dec (Length db) 0) as [Hl|Hl];
        [destruct (string_dec text EmptyString) as [->|Ht]|].
      * rewrite Insert_noop in H by assumption. inversion H; subst.
        left. reflexivity.
      * rewrite Insert_at_end in H by auto.
        destruct (saveToFile_cases (filePath db) (records db ++ [text]) w)
          as [[w1 [E C]]|[e [w1 E]]]; rewrite E in H; inversion H; subst.
        -- right. split; [reflexivity|]. exists (records db), [].
           rewrite app_nil_r. repeat split. exact C.
        -- left. reflexivity.
      * rewrite Insert_at_end in H by auto.
        destruct (saveToFile_cases (filePath db) (records db ++ [text]) w)
          as [[w1 [E C]]|[e [w1 E]]]; rewrite E in H; inversion H; subst.
        -- right. split; [reflexivity|]. exists (records db), [].
           rewrite app_nil_r. repeat split. exact C.
        -- left. reflexivity.
    + destruct (position_split db number) as [pre [old [suf [Edb En]]]];
        [lia|].
      rewrite Edb, En in H. rewrite Insert_at in H by discriminate.
      rewrite <- Edb in H.
      destruct (saveToFile_cases (filePath db) (pre ++ text :: old :: suf) w)
        as [[w1 [E C]]|[e [w1 E]]]; rewrite E in H; inversion H; subst.
      * right. split; [reflexivity|]. exists pre, (old :: suf).
        split; [now rewrite Edb|]. now split.
      * left. reflexivity.
Qed.

Lemma Update_cases (db : Database) (number : Z) (text : string)
    (w : os.World) (res : string * option error) (db' : Database)
    (w' : os.World) :
  Update db number text w = Some (res, db', w') ->
  db' = db
  \/ exists pre old suf,
       records db = pre ++ old :: suf /\ number = len pre + 1
       /\ res = (old, None)
       /\ committed db (pre ++ text :: suf) db' w'.
Proof.
  intros H.
  destruct (Z.eq_dec (Length db) 0) as [Hl|Hl].
  { unfold Update in H. rewrite Record_empty in H by assumption.
    inversion H; subst. left. reflexivity. }
  destruct (Z_lt_le_dec number 1) as [Hlo|Hlo];
    [|destruct (Z_lt_le_dec (Length db) number) as [Hhi|Hhi]].
  - unfold Update in H. rewrite Record_outside in H by (auto; lia).
    inversion H; subst. left. reflexivity.
  - unfold Update in H. rewrite Record_outside in H by (auto; lia).
    inversion H; subst. left. reflexivity.
  - destruct (position_split db number) as [pre [old [suf [Edb En]]]];
      [lia|].
    rewrite Edb, En in H. rewrite Update_at in H. rewrite <- Edb in H.
    destruct (saveToFile_cases (filePath db) (pre ++ text :: suf) w)
      as [[w1 [E C]]|[e [w1 E]]]; rewrite E in H; inversion H; subst.
    + right. exists pre, old, suf. rewrite Edb at 1. cbn [records].
      repeat split. exact C.
    + left. reflexivity.
Qed.

Lemma Delete_cases (db : Database) (number : Z) (w : os.World)
    (res : string * option error) (db' : Database) (w' : os.World) :
  Delete db number w = Some (res, db', w') ->
  db' = db
  \/ exists pre old suf,
       records db = pre ++ old :: suf /\ number = len pre + 1
       /\ res = (old, None)
       /\ committed db (pre ++ suf) db' w'.
Proof.
  intros H.
  destruct (Z.eq_dec (Length db) 0) as [Hl|Hl].
  { unfold Delete in H. rewrite Record_empty in H by assumption.
    inversion H; subst. left. reflexivity. }
  destruct (Z_lt_le_dec number 1) as [Hlo|Hlo];
    [|destruct (Z_lt_le_dec (Length db) number) as [Hhi|Hhi]].
  - unfold Delete in H. rewrite Record_outside in H by (auto; lia).
    inversion H; subst. left. reflexivity.
  - unfold Delete in H. rewrite Record_outside in H by (auto; lia).
    inversion H; subst. left. reflexivity.
  - destruct (position_split db number) as [pre [old [suf [Edb En]]]];
      [lia|].
    rewrite Edb, En in H. rewrite Delete_at in H. rewrite <- Edb in H.
    destruct (saveToFile_cases (filePath db) (pre ++ suf) w)
      as [[w1 [E C]]|[e [w1 E]]]; rewrite E in H; inversion H; subst.
    + right. exists pre, old, suf. rewrite Edb at 1. cbn [records].
      repeat split. exact C.
    + left. reflexivity.
Qed.

(** ** What holds in every state of a handle *)

Lemma unchanged_consistent (db db' : Database) (w w' : os.World) :
  unchanged db w db' w' -> consistent db w -> consistent db' w'.
Proof.
  intros [-> F]. unfold consistent, os.content. now rewrite F.
Qed.

Lemma committed_consistent (db db' : Database) (new : list string)
    (w' : os.World) :
  committed db new db' w' -> consistent db' w'.
Proof. intros [-> C]. exact C. Qed.

Lemma Chmod_content (name : string) (r wr : bool) (w : os.World) :
  os.content (os.Chmod name r wr w) name = os.content w name.
Proof.
  unfold os.Chmod. destruct (os.files w name) as [f|] eqn:E; [|reflexivity].
  rewrite content_put. unfold os.content. now rewrite E.
Qed.

Lemma Open_cases (path : string) (w0 w : os.World) (db : Database) :
  Open path w0 = (Some db, None, w) ->
  exists buf, os.content w0 path = Some buf
              /\ db = mkDatabase path (decode buf)
              /\ os.files w = os.files w0.
Proof.
  unfold Open, loadFromFile, os.ReadFile, os.content. intros H.
  destruct (os.files w0 path) as [f|]; [|discriminate].
  destruct (os.readable f); [|discriminate].
  inversion H; subst. exists (os.data f). repeat split.
Qed.

Lemma reachable_no_separator (db : Database) (w : os.World) :
  reachable no_separator db w -> Forall no_separator (records db).
Proof.
  induction 1 as [path w0 db w HO
                 |db w number text err db' w' _ IH Ht HI
                 |db w number text res db' w' _ IH Ht HU
                 |db w number res db' w' _ IH HD
                 |db w r wr _ IH
                 |db w fault _ IH].
  - apply Open_cases in HO as [buf [_ [-> _]]]. apply decode_no_separator.
  - apply Insert_cases in HI as [->|[_ [pre [suf [E [-> _]]]]]];
      [assumption|].
    rewrite E in IH. apply Forall_app in IH as [Hp Hs]. cbn [records].
    apply Forall_app. split; [assumption|]. now constructor.
  - apply Update_cases in HU as [->|[pre [old [suf [E [_ [_ [-> _]]]]]]]];
      [assumption|].
    rewrite E in IH. apply Forall_app in IH as [Hp Hs]. cbn [records].
    inversion Hs; subst.
    apply Forall_app. split; [assumption|]. now constructor.
  - apply Delete_cases in HD as [->|[pre [old [suf [E [_ [_ [-> _]]]]]]]];
      [assumption|].
    rewrite E in IH. apply Forall_app in IH as [Hp Hs]. cbn [records].
    inversion Hs; subst.
    apply Forall_app. now split.
  - assumption.
  - assumption.
Qed.

(** ** The reading operations *)

Lemma All_spec (db : Database) : All db = Some (numbered 1 (records db)).
Proof.
  unfold All, Length. rewrite make_full. cbn [bind]. unfold range.
  exact (All_loop (records db) _ (records db) [] eq_refl).
Qed.

Lemma Select_spec (db : Database) (filter : Rec -> bool) :
  Select db filter = Some (List.filter filter (numbered 1 (records db))).
Proof.
  unfold Select, range.
  exact (Select_loop (records db) filter (records db) [] [] eq_refl).
Qed.

Lemma Record_nth (db : Database) (number : Z) :
  1 <= number <= Length db ->
  exists text, nth_error (records db) (Z.to_nat (number - 1)) = Some text
               /\ Record db number = Some (text, None).
Proof.
  intros H. unfold Record.
  rewrite checkEmpty_nonempty by lia.
  rewrite checkBounds_inside by lia.
  destruct (index_in_range (records db) (number - 1)) as [x [Hi Hn]].
  - unfold Length in H. lia.
  - exists x. split; [exact Hn|]. now rewrite Hi.
Qed.

Lemma Record_total (db : Database) (number : Z) :
  exists res, Record db number = Some res.
Proof.
  destruct (Z.eq_dec (Length db) 0) as [Hl|Hl].
  - rewrite Record_empty by assumption. eauto.
  - destruct (Z_lt_le_dec number 1) as [Hlo|Hlo];
      [|destruct (Z_lt_le_dec (Length db) number) as [Hhi|Hhi]].
    + rewrite Record_outside by (auto; lia). eauto.
    + rewrite Record_outside by (auto; lia). eauto.
    + destruct (Record_nth db number) as [t [_ Ht]]; [lia|]. eauto.
Qed.

Lemma Insert_total (db : Database) (number : Z) (text : string)
    (w : os.World) :
  exists err db' w', Insert db number text w = Some (err, db', w').
Proof.
  destruct (Z_lt_le_dec number 0) as [Hlo|Hlo];
    [|destruct (Z_lt_le_dec (Length db) number) as [Hhi|Hhi]].
  - rewrite Insert_outside by lia. eauto.
  - rewrite Insert_outside by lia. eauto.
  - destruct (Z.eq_dec number 0) as [->|Hn].
    + destruct (Z.eq_dec (Length db) 0) as [Hl|Hl];
        [destruct (string_dec text EmptyString) as [->|Ht]|].
      * rewrite Insert_noop by assumption. eauto.
      * rewrite Insert_at_end by auto.
        destruct (saveToFile _ _ w) as [[e|] w1]; eauto.
      * rewrite Insert_at_end by auto.
        destruct (saveToFile _ _ w) as [[e|] w1]; eauto.
    + destruct (position_split db number) as [pre [old [suf [Edb En]]]];
        [lia|].
      rewrite Edb, En, Insert_at by discriminate.
      destruct (saveToFile _ _ w) as [[e|] w1]; eauto.
Qed.

Lemma Update_total (db : Database) (number : Z) (text : string)
    (w : os.World) :
  exists res db' w', Update db number text w = Some (res, db', w').
Proof.
  destruct (Z.eq_dec (Length db) 0) as [Hl|Hl].
  { unfold Update. rewrite Record_empty by assumption. cbn. eauto. }
  destruct (Z_lt_le_dec number 1) as [Hlo|Hlo];
    [|destruct (Z_lt_le_dec (Length db) number) as [Hhi|Hhi]].
  - unfold Update. rewrite Record_outside by (auto; lia). cbn. eauto.
  - unfold Update. rewrite Record_outside by (auto; lia). cbn. eauto.
  - destruct (position_split db number) as [pre [old [suf [Edb En]]]];
      [lia|].
    rewrite Edb, En, Update_at.
    destruct (saveToFile _ _ w) as [[e|] w1]; eauto.
Qed.

Lemma Delete_total (db : Database) (number : Z) (w : os.World) :
  exists res db' w', Delete db number w = Some (res, db', w').
Proof.
  destruct (Z.eq_dec (Length db) 0) as [Hl|Hl].
  { unfold Delete. rewrite Record_empty by assumption. cbn. eauto. }
  destruct (Z_lt_le_dec number 1) as [Hlo|Hlo];
    [|destruct (Z_lt_le_dec (Length db) number) as [Hhi|Hhi]].
  - unfold Delete. rewrite Record_outside by (auto; lia). cbn. eauto.
  - unfold Delete. rewrite Record_outside by (auto; lia). cbn. eauto.
  - destruct (position_split db number) as [pre [old [suf [Edb En]]]];
      [lia|].
    rewrite Edb, En, Delete_at.
    destruct (saveToFile _ _ w) as [[e|] w1]; eauto.
Qed.

(** ** Two runs from [Open] *)

(** [Open] on the file ["a"], then [Update(1, "")]: one record in memory, the
    empty one, and a backing file of zero bytes. *)
Lemma run_update_to_empty_text :
  exists w,
    Update (db_of "a") 1 "" (opened "a")
    = Some (("a"%string, None), mkDatabase "db" [EmptyString], w)
    /\ os.content w "db" = Some EmptyString
    /\ reachable no_separator (mkDatabase "db" [EmptyString]) w.
Proof.
  eexists. split; [reflexivity|]. split; [reflexivity|].
  eapply (reach_Update no_separator (db_of "a") (opened "a") 1 EmptyString).
  - apply (reach_Open no_separator "db" (world_of "a")). reflexivity.
  - reflexivity.
  - reflexivity.
Qed.

(** [Open] on the file ["\n"], two empty records, then [Delete(1)]: again one
    empty record in memory and a backing file of zero bytes. *)
Lemma run_delete_to_empty_text :
  exists w,
    Delete (db_of (String sep "")) 1 (opened (String sep ""))
    = Some ((EmptyString, None), mkDatabase "db" [EmptyString], w)
    /\ os.content w "db" = Some EmptyString
    /\ reachable no_separator (mkDatabase "db" [EmptyString]) w.
Proof.
  eexists. split; [reflexivity|]. split; [reflexivity|].
  eapply (reach_Delete no_separator (db_of (String sep ""))
            (opened (String sep "")) 1).
  - apply (reach_Open no_separator "db" (world_of (String sep ""))).
    reflexivity.
  - reflexivity.
Qed.

(** ** The codec round trip *)

(** The sequences that survive encoding and decoding are those without a
    separator in a record, the single empty record apart. *)
Lemma decode_encode_iff (x : list string) :
  decode (encode x) = x <-> Forall no_separator x /\ x <> [EmptyString].
Proof.
  split.
  - intros H. split.
    + rewrite <- H. apply decode_no_separator.
    + intros ->. discriminate H.
  - intros [Hf Hne]. now apply decode_encode.
Qed.

(** C1: the record sequence reached from [Open] on the file ["a"] by the
    successful [Update(1, "")], one record holding the empty string, encodes
    to zero bytes, which decode to zero records: [decode (encode x)] is not
    [x] for this reachable [x], all of whose texts are free of the
    separator. *)
Theorem C1_one_empty_record_does_not_round_trip :
  exists w,
    Update (db_of "a") 1 "" (opened "a")
    = Some (("a"%string, None), mkDatabase "db" [EmptyString], w)
    /\ reachable no_separator (mkDatabase "db" [EmptyString]) w
    /\ encode (records (mkDatabase "db" [EmptyString])) = EmptyString
    /\ decode (encode (records (mkDatabase "db" [EmptyString]))) = []
    /\ decode (encode (records (mkDatabase "db" [EmptyString])))
       <> records (mkDatabase "db" [EmptyString]).
Proof.
  destruct run_update_to_empty_text as [w [U [_ R]]].
  exists w. split; [exact U|]. split; [exact R|].
  split; [reflexivity|]. split; [reflexivity|]. discriminate.
Qed.

(** ** The store and its backing file *)

(** When the backing file holds the encoding of separator-free records, a
    file that is not empty holds one record more than it has separators, and
    a store without records has a backing file of zero bytes. *)
Lemma nonempty_file_record_count (db : Database) (w : os.World) (buf : string) :
  Forall no_separator (records db) ->
  consistent db w ->
  os.content w (filePath db) = Some buf ->
  buf <> EmptyString ->
  Length db = Z.of_nat (strings.Count buf sep) + 1.
Proof.
  intros Hs Hc C Hne.
  unfold consistent in Hc. rewrite C in Hc. inversion Hc; subst buf.
  unfold encode. rewrite Count_Join by exact Hs.
  unfold Length, len. destruct (records db); [now elim Hne|].
  cbn [List.length pred]. lia.
Qed.

Lemma empty_store_empty_file (db : Database) (w : os.World) :
  consistent db w -> Length db = 0 ->
  os.content w (filePath db) = Some EmptyString.
Proof.
  intros Hc H. unfold consistent in Hc. rewrite Hc.
  unfold Length in H. now rewrite (len_zero _ H).
Qed.

(** C2: [Open] on the file ["a"] followed by [Update(1, "")], which
    succeeds, leaves a backing file of zero bytes and a store of one record;
    so does [Open] on the file ["\n"] followed by [Delete(1)].  (The bytes of
    the file are the encoding of the records, as after every write that
    goes through.) *)
Theorem C2_zero_byte_file_with_one_record :
  (exists w,
     Update (db_of "a") 1 "" (opened "a")
     = Some (("a"%string, None), mkDatabase "db" [EmptyString], w)
     /\ reachable no_separator (mkDatabase "db" [EmptyString]) w
     /\ os.content w (filePath (mkDatabase "db" [EmptyString]))
        = Some EmptyString
     /\ Length (mkDatabase "db" [EmptyString]) = 1
     /\ consistent (mkDatabase "db" [EmptyString]) w)
  /\ (exists w,
        Delete (db_of (String sep "")) 1 (opened (String sep ""))
        = Some ((EmptyString, None), mkDatabase "db" [EmptyString], w)
        /\ reachable no_separator (mkDatabase "db" [EmptyString]) w
        /\ os.content w (filePath (mkDatabase "db" [EmptyString]))
           = Some EmptyString
        /\ Length (mkDatabase "db" [EmptyString]) = 1).
Proof.
  split.
  - destruct run_update_to_empty_text as [w [U [C R]]].
    exists w. repeat split; assumption.
  - destruct run_delete_to_empty_text as [w [D [C R]]].
    exists w. repeat split; assumption.
Qed.

(** ** Failing writes *)

Lemma Insert_inside_error (db : Database) (number : Z) (text : string)
    (w : os.World) (err : error) (db' : Database) (w' : os.World) :
  0 <= number <= Length db ->
  Insert db number text w = Some (Some err, db', w') ->
  exists e, err = ErrSave (filePath db) e.
Proof.
  intros Hn H.
  destruct (Z.eq_dec number 0) as [->|Hn0].
  - destruct (Z.eq_dec (Length db) 0) as [Hl|Hl];
      [destruct (string_dec text EmptyString) as [->|Ht]|].
    + rewrite Insert_noop in H by assumption. discriminate.
    + rewrite Insert_at_end in H by auto.
      destruct (saveToFile_cases (filePath db) (records db ++ [text]) w)
        as [[w1 [E C]]|[e [w1 E]]]; rewrite E in H; inversion H; eauto.
    + rewrite Insert_at_end in H by auto.
      destruct (saveToFile_cases (filePath db) (records db ++ [text]) w)
        as [[w1 [E C]]|[e [w1 E]]]; rewrite E in H; inversion H; eauto.
  - destruct (position_split db number) as [pre [old [suf [Edb En]]]];
      [lia|].
    rewrite Edb, En in H. rewrite Insert_at in H by discriminate.
    rewrite <- Edb in H.
    destruct (saveToFile_cases (filePath db) (pre ++ text :: old :: suf) w)
      as [[w1 [E C]]|[e [w1 E]]]; rewrite E in H; inversion H; eauto.
Qed.

(** C3, as stated, fails: on a device that fails once one byte is written,
    [Update(1, "new")] on the store opened on the file ["initial"] reports
    the error of the write and keeps the record in memory, but the backing
    file, truncated by the open, is left holding ["n"]. *)
Lemma C3_failed_write_truncates_the_file :
  exists w',
    Update (db_of "initial") 1 "new" (faulty "initial" 1)
    = Some ((EmptyString, Some (ErrSave "db" os.EIO)), db_of "initial", w')
    /\ os.content (faulty "initial" 1) "db" = Some "initial"%string
    /\ os.content w' "db" = Some "n"%string
    /\ os.content w' "db" <> os.content (faulty "initial" 1) "db".
Proof.
  eexists. split; [reflexivity|]. split; [reflexivity|].
  split; [reflexivity|]. discriminate.
Qed.

(** C3, amended: when the write of the backing file fails during [Insert],
    [Update] or [Delete] on a position their checks accept, the call reports
    the error of the write and the records in memory are exactly as before
    the call; when it fails at the open, the backing file being one that may
    not be written, every file is as before the call too.  Whatever the file
    system does, a call that reports an error has not changed the records
    in memory. *)
Theorem C3_failed_write_keeps_the_records (db : Database) (w : os.World)
    (number : Z) (text : string) :
  (can_write w (filePath db) = false ->
     (0 <= number <= Length db ->
      ~ (Length db = 0 /\ text = EmptyString) ->
      exists e w', Insert db number text w
                   = Some (Some (ErrSave (filePath db) e), db, w'))
     /\ (1 <= number <= Length db ->
         exists e w', Update db number text w
                      = Some ((EmptyString, Some (ErrSave (filePath db) e)),
                              db, w'))
     /\ (1 <= number <= Length db ->
         exists e w', Delete db number w
                      = Some ((EmptyString, Some (ErrSave (filePath db) e)),
                              db, w')))
  /\ (forall f,
         os.files w (filePath db) = Some f -> os.writable f = false ->
         (0 <= number <= Length db ->
          ~ (Length db = 0 /\ text = EmptyString) ->
          exists w', Insert db number text w
                     = Some (Some (ErrSave (filePath db) os.EACCES), db, w')
                     /\ os.files w' = os.files w)
         /\ (1 <= number <= Length db ->
             exists w', Update db number text w
                        = Some ((EmptyString,
                                 Some (ErrSave (filePath db) os.EACCES)),
                                db, w')
                        /\ os.files w' = os.files w)
         /\ (1 <= number <= Length db ->
             exists w', Delete db number w
                        = Some ((EmptyString,
                                 Some (ErrSave (filePath db) os.EACCES)),
                                db, w')
                        /\ os.files w' = os.files w))
  /\ (forall err db' w',
         Insert db number text w = Some (Some err, db', w') -> db' = db)
  /\ (forall old err db' w',
         Update db number text w = Some ((old, Some err), db', w') ->
         db' = db)
  /\ (forall old err db' w',
         Delete db number w = Some ((old, Some err), db', w') -> db' = db).
Proof.
  assert (Hnoop' : ~ (Length db = 0 /\ text = EmptyString) ->
                   Length db <> 0 \/ text <> EmptyString).
  { intros Hnoop. destruct (Z.eq_dec (Length db) 0);
      destruct (string_dec text EmptyString); tauto. }
  split; [intros Hw; split; [|split]
         |split; [intros f Hf Hw; split; [|split]|split; [|split]]].
  - intros Hn Hnoop.
    destruct (Z.eq_dec number 0) as [->|Hn0].
    + rewrite Insert_at_end, saveToFile_failed by auto.
      do 2 eexists. reflexivity.
    + destruct (position_split db number) as [pre [old [suf [Edb En]]]];
        [lia|].
      destruct db as [p rs]. cbn [filePath] in *. injection Edb as ->.
      rewrite En, Insert_at, saveToFile_failed by (discriminate || exact Hw).
      do 2 eexists. reflexivity.
  - intros Hn.
    destruct (position_split db number) as [pre [old [suf [Edb En]]]]; [lia|].
    destruct db as [p rs]. cbn [filePath] in *. injection Edb as ->.
    rewrite En, Update_at, saveToFile_failed by exact Hw.
    do 2 eexists. reflexivity.
  - intros Hn.
    destruct (position_split db number) as [pre [old [suf [Edb En]]]]; [lia|].
    destruct db as [p rs]. cbn [filePath] in *. injection Edb as ->.
    rewrite En, Delete_at, saveToFile_failed by exact Hw.
    do 2 eexists. reflexivity.
  - intros Hn Hnoop.
    destruct (Z.eq_dec number 0) as [->|Hn0].
    + rewrite Insert_at_end by auto.
      rewrite (saveToFile_not_writable _ _ _ f Hf Hw).
      eexists. split; reflexivity.
    + destruct (position_split db number) as [pre [old [suf [Edb En]]]];
        [lia|].
      destruct db as [p rs]. cbn [filePath] in *. injection Edb as ->.
      rewrite En, Insert_at by discriminate.
      rewrite (saveToFile_not_writable _ _ _ f Hf Hw).
      eexists. split; reflexivity.
  - intros Hn.
    destruct (position_split db number) as [pre [old [suf [Edb En]]]]; [lia|].
    destruct db as [p rs]. cbn [filePath] in *. injection Edb as ->.
    rewrite En, Update_at, (saveToFile_not_writable _ _ _ f Hf Hw).
    eexists. split; reflexivity.
  - intros Hn.
    destruct (position_split db number) as [pre [old [suf [Edb En]]]]; [lia|].
    destruct db as [p rs]. cbn [filePath] in *. injection Edb as ->.
    rewrite En, Delete_at, (saveToFile_not_writable _ _ _ f Hf Hw).
    eexists. split; reflexivity.
  - intros err db' w' H.
    apply Insert_cases in H as [U|[E _]]; [exact U|discriminate].
  - intros old err db' w' H.
    apply Update_cases in H as [U|[pre [o [suf [_ [_ [E _]]]]]]];
      [exact U|discriminate].
  - intros old err db' w' H.
    apply Delete_cases in H as [U|[pre [o [suf [_ [_ [E _]]]]]]];
      [exact U|discriminate].
Qed.

Lemma C3_failed_write_keeps_the_records_witness :
  (can_write (faulty "initial" 1) (filePath (db_of "initial")) = false
   /\ 1 <= 1 <= Length (db_of "initial")
   /\ exists e w', Update (db_of "initial") 1 "new" (faulty "initial" 1)
                   = Some ((EmptyString, Some (ErrSave "db" e)),
                           db_of "initial", w'))
  /\ (os.files (readonly "initial") (filePath (db_of "initial"))
      = Some (os.mkfile "initial" true false)
      /\ 0 <= 1 <= Length (db_of "initial")
      /\ ~ (Length (db_of "initial") = 0 /\ "new"%string = EmptyString)
      /\ (exists w', Insert (db_of "initial") 1 "new" (readonly "initial")
                     = Some (Some (ErrSave "db" os.EACCES),
                             db_of "initial", w')
                     /\ os.files w' = os.files (readonly "initial"))
      /\ (exists w', Update (db_of "initial") 1 "new" (readonly "initial")
                     = Some ((EmptyString, Some (ErrSave "db" os.EACCES)),
                             db_of "initial", w')
                     /\ os.files w' = os.files (readonly "initial"))
      /\ (exists w', Delete (db_of "initial") 1 (readonly "initial")
                     = Some ((EmptyString, Some (ErrSave "db" os.EACCES)),
                             db_of "initial", w')
                     /\ os.files w' = os.files (readonly "initial"))).
Proof.
  assert (Hw : can_write (faulty "initial" 1) (filePath (db_of "initial"))
               = false) by reflexivity.
  assert (Hf : os.files (readonly "initial") (filePath (db_of "initial"))
               = Some (os.mkfile "initial" true false)) by reflexivity.
  assert (Hn1 : 0 <= 1 <= Length (db_of "initial"))
    by (vm_compute; split; discriminate).
  assert (Hn2 : 1 <= 1 <= Length (db_of "initial"))
    by (vm_compute; split; discriminate).
  assert (Hnoop : ~ (Length (db_of "initial") = 0
                     /\ "new"%string = EmptyString))
    by (intros [_ H]; discriminate H).
  split.
  - split; [exact Hw|]. split; [exact Hn2|].
    exact (proj1 (proj2 (proj1 (C3_failed_write_keeps_the_records
                                  (db_of "initial") (faulty "initial" 1)
                                  1 "new") Hw)) Hn2).
  - destruct (proj1 (proj2 (C3_failed_write_keeps_the_records
                              (db_of "initial") (readonly "initial") 1 "new"))
                _ Hf eq_refl) as [HI [HU HD]].
    split; [exact Hf|]. split; [exact Hn1|]. split; [exact Hnoop|].
    split; [exact (HI Hn1 Hnoop)|]. split; [exact (HU Hn2)|exact (HD Hn2)].
Defined.

(** ** Inserting *)

Lemma Record_inside (db : Database) (number : Z) :
  1 <= number <= Length db ->
  Record db number
  = option_map (fun text => (text, @None error))
      (nth_error (records db) (Z.to_nat (number - 1))).
Proof.
  intros H. destruct (Record_nth db number H) as [t [Hn Hr]].
  now rewrite Hn, Hr.
Qed.

(** A successful [Insert] that is not the no-op puts the text in the records,
    before the record that had the number, or last for the number 0. *)
Lemma Insert_success (db : Database) (number : Z) (text : string)
    (w : os.World) (db' : Database) (w' : os.World) :
  0 <= number <= Length db ->
  ~ (Length db = 0 /\ text = EmptyString) ->
  Insert db number text w = Some (None, db', w') ->
  exists pre suf,
    records db = pre ++ suf
    /\ records db' = pre ++ text :: suf
    /\ len pre + 1 = inserted_position (Length db) number.
Proof.
  intros Hn Hnoop H. unfold inserted_position.
  destruct (Z.eq_dec number 0) as [->|Hn0].
  - rewrite Insert_at_end in H
      by (destruct (Z.eq_dec (Length db) 0);
          destruct (string_dec text EmptyString); tauto).
    destruct (saveToFile (filePath db) (records db ++ [text]) w)
      as [[e|] w1]; inversion H; subst.
    exists (records db), []. rewrite app_nil_r. repeat split.
  - destruct (position_split db number) as [pre [old [suf [Edb En]]]]; [lia|].
    destruct db as [p rs]. cbn [filePath] in *. injection Edb as ->.
    rewrite En, Insert_at in H by discriminate.
    destruct (saveToFile p (pre ++ text :: old :: suf) w)
      as [[e|] w1]; inversion H; subst.
    exists pre, (old :: suf). cbn [records]. repeat split.
    replace (len pre + 1 =? 0) with false; [reflexivity|].
    symmetry. apply Z.eqb_neq. pose proof (len_nonneg pre). lia.
Qed.

(** C4, as stated, fails: on the store opened on the empty file,
    [Insert(0, "")] succeeds and the store still has no record, so that
    [Record] at position [Length()+1 = 1] reports that the database has no
    records instead of returning the text. *)
Lemma C4_insert_then_record_fails_on_empty_insert :
  0 <= 0 <= Length (db_of "")
  /\ Insert (db_of "") 0 "" (opened "") = Some (None, db_of "", opened "")
  /\ Record (db_of "") (inserted_position (Length (db_of "")) 0)
     = Some (EmptyString, Some ErrNoRecords)
  /\ Record (db_of "") (inserted_position (Length (db_of "")) 0)
     <> Some (EmptyString, None).
Proof.
  split; [vm_compute; split; discriminate|].
  split; [reflexivity|]. split; [reflexivity|]. discriminate.
Qed.

(** C4, amended: for every store, every text and every number in
    [[0, Length()]], unless the store has no record and the text is empty,
    after a successful [Insert(number, text)] a [Record] call at the inserted
    position (the number when it is at least 1, [Length()+1] of before the
    insertion when it is 0) returns the inserted text. *)
Theorem C4_insert_then_record (db : Database) (number : Z) (text : string)
    (w : os.World) (db' : Database) (w' : os.World) :
  0 <= number <= Length db ->
  ~ (Length db = 0 /\ text = EmptyString) ->
  Insert db number text w = Some (None, db', w') ->
  Record db' (inserted_position (Length db) number) = Some (text, None).
Proof.
  intros Hn Hnoop H.
  destruct (Insert_success db number text w db' w' Hn Hnoop H)
    as [pre [suf [_ [E' <-]]]].
  destruct db' as [p' rs']. cbn [records] in E'. subst rs'.
  apply Record_at.
Qed.

Lemma C4_insert_then_record_witness :
  0 <= 2 <= Length (db_of two_lines)
  /\ ~ (Length (db_of two_lines) = 0 /\ "text"%string = EmptyString)
  /\ exists w',
       Insert (db_of two_lines) 2 "text" (opened two_lines)
       = Some (None, mkDatabase "db" ["ln1"; "text"; "ln2"]%string, w')
       /\ Record (mkDatabase "db" ["ln1"; "text"; "ln2"]%string)
                 (inserted_position (Length (db_of two_lines)) 2)
          = Some ("text"%string, None).
Proof.
  assert (Hn : 0 <= 2 <= Length (db_of two_lines))
    by (vm_compute; split; discriminate).
  assert (Hnoop : ~ (Length (db_of two_lines) = 0
                     /\ "text"%string = EmptyString))
    by (intros [_ H]; discriminate H).
  split; [exact Hn|]. split; [exact Hnoop|].
  eexists. split; [reflexivity|].
  eapply (C4_insert_then_record (db_of two_lines) 2 "text" (opened two_lines));
    [exact Hn|exact Hnoop|reflexivity].
Defined.

(** C5, as stated, fails: on the store opened on the empty file,
    [Insert(0, "")] succeeds and appends nothing. *)
Lemma C5_insert_at_end_fails_on_empty_insert :
  Insert (db_of "") 0 "" (opened "") = Some (None, db_of "", opened "")
  /\ records (db_of "") = []
  /\ records (db_of "") <> records (db_of "") ++ [EmptyString].
Proof. split; [reflexivity|]. split; [reflexivity|]. discriminate. Qed.

(** C5, amended: [Insert(number, text)] fails with the out-of-bounds error
    carrying the number, the lower bound 0 and the upper bound [Length()] if
    and only if [number < 0] or [number > Length()]; a successful
    [Insert(0, text)] appends the record after the current last record,
    unless the store has no record and the text is empty; a successful
    [Insert(number, text)] with [1 <= number <= Length()] makes the text the
    number-th record, the records at and after that position coming one
    position later and the records before it staying where they were. *)
Theorem C5_insert_semantics (db : Database) (number : Z) (text : string)
    (w : os.World) :
  (number < 0 \/ number > Length db ->
     Insert db number text w
     = Some (Some (ErrOutOfBounds number 0 (Length db)), db, w))
  /\ (forall n lower upper db' w',
         Insert db number text w
         = Some (Some (ErrOutOfBounds n lower upper), db', w') ->
         number < 0 \/ number > Length db)
  /\ (forall db' w',
         number = 0 ->
         ~ (Length db = 0 /\ text = EmptyString) ->
         Insert db number text w = Some (None, db', w') ->
         records db' = records db ++ [text])
  /\ (forall db' w',
         1 <= number <= Length db ->
         Insert db number text w = Some (None, db', w') ->
         Length db' = Length db + 1
         /\ Record db' number = Some (text, None)
         /\ (forall i, 1 <= i < number -> Record db' i = Record db i)
         /\ (forall i, number <= i <= Length db ->
                       Record db' (i + 1) = Record db i)).
Proof.
  split; [apply Insert_outside|]. split; [|split].
  - intros n lower upper db' w' H.
    destruct (Z_lt_le_dec number 0) as [Hlo|Hlo]; [auto|].
    destruct (Z_lt_le_dec (Length db) number) as [Hhi|Hhi]; [right; lia|].
    destruct (Insert_inside_error db number text w _ db' w' (conj Hlo Hhi) H)
      as [e He].
    discriminate He.
  - intros db' w' -> Hnoop H.
    pose proof (Length_nonneg db) as Hl.
    destruct (Insert_success db 0 text w db' w' (conj (Z.le_refl 0) Hl) Hnoop H)
      as [pre [suf [E [E' Hp]]]].
    unfold inserted_position in Hp. cbn [Z.eqb] in Hp.
    assert (Hs : suf = []).
    { apply len_zero. unfold Length in Hp. rewrite E, len_app in Hp. lia. }
    subst suf. rewrite app_nil_r in E. now rewrite E', E.
  - intros db' w' Hn H.
    destruct (Insert_success db number text w db' w') as [pre [suf [E [E' Hp]]]];
      [lia|lia|exact H|].
    unfold inserted_position in Hp.
    replace (number =? 0) with false in Hp
      by (symmetry; apply Z.eqb_neq; lia).
    subst number.
    assert (HL : Length db' = Length db + 1).
    { unfold Length. rewrite E, E', !len_app, len_cons. lia. }
    pose proof (len_nonneg pre) as Hpre.
    assert (Hlp : Z.to_nat (len pre) = List.length pre)
      by (unfold len; apply Nat2Z.id).
    split; [exact HL|]. split; [|split].
    + destruct db' as [p' rs']. cbn [records] in E'. subst rs'.
      apply Record_at.
    + intros i Hi. rewrite !Record_inside by lia. rewrite E, E'.
      rewrite !nth_error_app1 by lia. reflexivity.
    + intros i Hi. rewrite !Record_inside by lia. rewrite E, E'.
      rewrite !nth_error_app2 by lia.
      replace (Z.to_nat (i + 1 - 1) - List.length pre)%nat
        with (S (Z.to_nat (i - 1) - List.length pre)) by lia.
      reflexivity.
Qed.

Lemma C5_insert_semantics_witness :
  ((3 < 0 \/ 3 > Length (db_of two_lines))
   /\ Insert (db_of two_lines) 3 "text" (opened two_lines)
      = Some (Some (ErrOutOfBounds 3 0 (Length (db_of two_lines))),
              db_of two_lines, opened two_lines))
  /\ (~ (Length (db_of two_lines) = 0 /\ "text"%string = EmptyString)
      /\ exists w',
           Insert (db_of two_lines) 0 "text" (opened two_lines)
           = Some (None, mkDatabase "db" ["ln1"; "ln2"; "text"]%string, w')
           /\ records (mkDatabase "db" ["ln1"; "ln2"; "text"]%string)
              = records (db_of two_lines) ++ ["text"%string])
  /\ (1 <= 2 <= Length (db_of two_lines)
      /\ exists w',
           Insert (db_of two_lines) 2 "text" (opened two_lines)
           = Some (None, mkDatabase "db" ["ln1"; "text"; "ln2"]%string, w')
           /\ Record (mkDatabase "db" ["ln1"; "text"; "ln2"]%string) 2
              = Some ("text"%string, None)
           /\ Record (mkDatabase "db" ["ln1"; "text"; "ln2"]%string) 1
              = Record (db_of two_lines) 1
           /\ Record (mkDatabase "db" ["ln1"; "text"; "ln2"]%string) (2 + 1)
              = Record (db_of two_lines) 2).
Proof.
  assert (Hout : 3 < 0 \/ 3 > Length (db_of two_lines))
    by (right; reflexivity).
  assert (Hnoop : ~ (Length (db_of two_lines) = 0
                     /\ "text"%string = EmptyString))
    by (intros [_ H]; discriminate H).
  assert (Hin : 1 <= 2 <= Length (db_of two_lines))
    by (vm_compute; split; discriminate).
  split; [|split].
  - split; [exact Hout|].
    exact (proj1 (C5_insert_semantics (db_of two_lines) 3 "text"
                    (opened two_lines)) Hout).
  - split; [exact Hnoop|]. eexists. split; [reflexivity|].
    eapply (proj1 (proj2 (proj2
              (C5_insert_semantics (db_of two_lines) 0 "text"
                 (opened two_lines)))));
      [reflexivity|exact Hnoop|reflexivity].
  - split; [exact Hin|]. eexists. split; [reflexivity|].
    destruct (proj2 (proj2 (proj2
                (C5_insert_semantics (db_of two_lines) 2 "text"
                   (opened two_lines))))
                _ _ Hin eq_refl) as [_ [HR [Hbefore Hafter]]].
    split; [exact HR|]. split.
    + apply Hbefore. vm_compute; split; [discriminate|reflexivity].
    + apply Hafter. vm_compute; split; discriminate.
Defined.

(** ** The errors of [Record], [Update] and [Delete] *)

(** C6: [Record(number)] reports that the database has no records whenever
    the store has none, whatever the number; otherwise it reports the
    out-of-bounds error, whose message shows the number, 1 and [Length()],
    if and only if [number < 1] or [number > Length()]; otherwise it returns
    the number-th record, counting from 1.  [Update] and [Delete] report the
    same errors and change nothing then. *)
Theorem C6_record_errors (db : Database) (number : Z) (text : string)
    (w : os.World) :
  (Length db = 0 ->
     Record db number = Some (EmptyString, Some ErrNoRecords)
     /\ Update db number text w
        = Some ((EmptyString, Some ErrNoRecords), db, w)
     /\ Delete db number w = Some ((EmptyString, Some ErrNoRecords), db, w))
  /\ (Length db <> 0 ->
      number < 1 \/ number > Length db ->
      Record db number
      = Some (EmptyString, Some (ErrOutOfBounds number 1 (Length db)))
      /\ Update db number text w
         = Some ((EmptyString, Some (ErrOutOfBounds number 1 (Length db))),
                 db, w)
      /\ Delete db number w
         = Some ((EmptyString, Some (ErrOutOfBounds number 1 (Length db))),
                 db, w)
      /\ Error (ErrOutOfBounds number 1 (Length db))
         = ("record number (" ++ fmt_d number ++ ") out of bounds ["
            ++ "1" ++ ", " ++ fmt_d (Length db) ++ "]")%string)
  /\ (Length db <> 0 ->
      forall old n lower upper,
        Record db number = Some (old, Some (ErrOutOfBounds n lower upper)) ->
        number < 1 \/ number > Length db)
  /\ (1 <= number <= Length db ->
      exists old,
        nth_error (records db) (Z.to_nat (number - 1)) = Some old
        /\ Record db number = Some (old, None)).
Proof.
  split; [|split; [|split]].
  - intros H. unfold Update, Delete. rewrite (Record_empty db number H).
    repeat split.
  - intros H1 H2. unfold Update, Delete.
    rewrite (Record_outside db number H1 H2). repeat split.
  - intros H1 old n lower upper H.
    destruct (Z_lt_le_dec number 1) as [Hlo|Hlo]; [auto|].
    destruct (Z_lt_le_dec (Length db) number) as [Hhi|Hhi]; [right; lia|].
    destruct (Record_nth db number (conj Hlo Hhi)) as [t [_ Ht]].
    rewrite Ht in H. discriminate H.
  - apply Record_nth.
Qed.

Lemma C6_record_errors_witness :
  (Length (db_of "") = 0
   /\ Record (db_of "") 1 = Some (EmptyString, Some ErrNoRecords))
  /\ (Length (db_of "ln1") <> 0 /\ (2 < 1 \/ 2 > Length (db_of "ln1"))
      /\ Record (db_of "ln1") 2
         = Some (EmptyString,
                 Some (ErrOutOfBounds 2 1 (Length (db_of "ln1")))))
  /\ (1 <= 1 <= Length (db_of "ln1")
      /\ exists old,
           nth_error (records (db_of "ln1")) (Z.to_nat (1 - 1)) = Some old
           /\ Record (db_of "ln1") 1 = Some (old, None)).
Proof.
  assert (H0 : Length (db_of "") = 0) by reflexivity.
  assert (H1 : Length (db_of "ln1") <> 0) by discriminate.
  assert (H2 : 2 < 1 \/ 2 > Length (db_of "ln1")) by (right; reflexivity).
  assert (H3 : 1 <= 1 <= Length (db_of "ln1"))
    by (vm_compute; split; discriminate).
  split; [|split].
  - split; [exact H0|].
    exact (proj1 (proj1 (C6_record_errors (db_of "") 1 "" (opened "")) H0)).
  - split; [exact H1|]. split; [exact H2|].
    exact (proj1 (proj1 (proj2
             (C6_record_errors (db_of "ln1") 2 "" (opened "ln1"))) H1 H2)).
  - split; [exact H3|].
    exact (proj2 (proj2 (proj2
             (C6_record_errors (db_of "ln1") 1 "" (opened "ln1")))) H3).
Defined.

(** ** Decoding and [Open] *)

(** C7: decoding zero bytes yields zero records; decoding any other input
    splits it on the separator and yields one record more than the input has
    separators, a leading, a trailing or a doubled separator producing an
    empty record; [Open] on a readable file of zero bytes yields a store of
    length 0, and on any other readable file a store of length [k+1], [k]
    being the number of separators. *)
Theorem C7_decode_rule :
  decode EmptyString = []
  /\ (forall buf : string,
         buf <> EmptyString ->
         decode buf = strings.Split buf sep
         /\ len (decode buf) = Z.of_nat (strings.Count buf sep) + 1)
  /\ decode (String sep "a") = [""; "a"]%string
  /\ decode (String "a" (String sep "")) = ["a"; ""]%string
  /\ decode (String "a" (String sep (String sep "b"))) = ["a"; ""; "b"]%string
  /\ (forall path w f,
         os.files w path = Some f -> os.readable f = true ->
         exists db w',
           Open path w = (Some db, None, w')
           /\ records db = decode (os.data f)
           /\ (os.data f = EmptyString -> Length db = 0)
           /\ (os.data f <> EmptyString ->
               Length db = Z.of_nat (strings.Count (os.data f) sep) + 1)).
Proof.
  assert (Hd : forall buf : string,
             buf <> EmptyString ->
             decode buf = strings.Split buf sep
             /\ len (decode buf) = Z.of_nat (strings.Count buf sep) + 1).
  { intros buf H. rewrite (decode_nonempty buf H). split; [reflexivity|].
    unfold len. rewrite Split_length. lia. }
  split; [reflexivity|]. split; [exact Hd|].
  split; [reflexivity|]. split; [reflexivity|]. split; [reflexivity|].
  intros path w f Hf Hr.
  unfold Open, loadFromFile, os.ReadFile. rewrite Hf, Hr.
  do 2 eexists. split; [reflexivity|]. cbn [records]. split; [reflexivity|].
  unfold Length. cbn [records]. split.
  - intros ->. reflexivity.
  - intros H. exact (proj2 (Hd _ H)).
Qed.

Lemma C7_decode_rule_witness :
  String sep "a" <> EmptyString
  /\ decode (String sep "a") = strings.Split (String sep "a") sep
  /\ len (decode (String sep "a"))
     = Z.of_nat (strings.Count (String sep "a") sep) + 1
  /\ exists db w',
       Open "db" (world_of "ln1") = (Some db, None, w')
       /\ records db = decode "ln1"
       /\ Length db = Z.of_nat (strings.Count "ln1" sep) + 1.
Proof.
  assert (H : String sep "a" <> EmptyString) by discriminate.
  split; [exact H|].
  split; [exact (proj1 (proj1 (proj2 C7_decode_rule) _ H))|].
  split; [exact (proj2 (proj1 (proj2 C7_decode_rule) _ H))|].
  destruct (proj2 (proj2 (proj2 (proj2 (proj2 C7_decode_rule))))
              "db"%string (world_of "ln1") (os.mkfile "ln1" true true)
              eq_refl eq_refl) as [db [w' [HO [HR [_ HL]]]]].
  exists db, w'. split; [exact HO|]. split; [exact HR|].
  apply HL. discriminate.
Defined.

(** ** The insert that does nothing *)

Lemma Open_consistent (path : string) (w0 w : os.World) (db : Database) :
  Open path w0 = (Some db, None, w) -> consistent db w.
Proof.
  intros HO. apply Open_cases in HO as [buf [C [-> F]]].
  unfold consistent, os.content in *. cbn [filePath records].
  rewrite F, C, encode_decode. reflexivity.
Qed.



(** ** No panic *)

(** C9: [Record], [All], [Select], [Insert], [Update] and [Delete] return,
    for every store, number, text, filter and file system: none of their
    index, slice or allocation steps panics ([Length] is a plain [len]);
    [All] returns every record with its number and [Select] those the filter
    accepts. *)
Theorem C9_no_panic (db : Database) (number : Z) (text : string)
    (filter : Rec -> bool) (w : os.World) :
  (exists res, Record db number = Some res)
  /\ All db = Some (numbered 1 (records db))
  /\ Select db filter = Some (List.filter filter (numbered 1 (records db)))
  /\ (exists err db' w', Insert db number text w = Some (err, db', w'))
  /\ (exists res db' w', Update db number text w = Some (res, db', w'))
  /\ (exists res db' w', Delete db number w = Some (res, db', w')).
Proof.
  split; [apply Record_total|]. split; [apply All_spec|].
  split; [apply Select_spec|]. split; [apply Insert_total|].
  split; [apply Update_total|apply Delete_total].
Qed.

(** ** The insert that does nothing writes nothing *)

(** C10: on a store with zero records, [Insert(0, "")] returns success
    without any call to the file system: the file system it leaves is the
    one it found, files and calls alike, also when the backing file cannot
    be written. *)
Theorem C10_empty_insert_writes_nothing (db : Database) (w : os.World) :
  Length db = 0 ->
  exists w',
    Insert db 0 EmptyString w = Some (None, db, w')
    /\ os.calls w' = os.calls w
    /\ os.files w' = os.files w
    /\ w' = w.
Proof.
  intros H. exists w. split; [exact (Insert_noop db w H)|]. repeat split.
Qed.

Lemma C10_empty_insert_writes_nothing_witness :
  Length (db_of "") = 0
  /\ can_write (readonly "") "db" = false
  /\ exists w',
       Insert (db_of "") 0 EmptyString (readonly "") = Some (None, db_of "", w')
       /\ os.calls w' = os.calls (readonly "")
       /\ os.files w' = os.files (readonly "")
       /\ w' = readonly "".
Proof.
  split; [reflexivity|]. split; [reflexivity|].
  apply (C10_empty_insert_writes_nothing (db_of "") (readonly "")).
  reflexivity.
Defined.

(** ** [Record] as a function of the records *)

Lemma Record_some_iff (db : Database) (number : Z) (text : string) :
  Record db number = Some (text, None)
  <-> 1 <= number <= Length db
      /\ nth_error (records db) (Z.to_nat (number - 1)) = Some text.
Proof.
  split.
  - intros H.
    destruct (Z.eq_dec (Length db) 0) as [Hl|Hl];
      [rewrite Record_empty in H by assumption; discriminate|].
    destruct (Z_lt_le_dec number 1) as [Hlo|Hlo];
      [rewrite Record_outside in H by (auto; lia); discriminate|].
    destruct (Z_lt_le_dec (Length db) number) as [Hhi|Hhi];
      [rewrite Record_outside in H by (auto; lia); discriminate|].
    destruct (Record_nth db number (conj Hlo Hhi)) as [t [Hn Hr]].
    rewrite Hr in H. inversion H; subst. split; [lia|exact Hn].
  - intros [Hn Ht]. destruct (Record_nth db number Hn) as [t [Hn' Hr]].
    rewrite Hr. congruence.
Qed.

(** Two stores of the same length answer [Record] alike wherever their
    records agree. *)
Lemma Record_ext (a b : Database) (number : Z) :
  Length a = Length b ->
  (1 <= number <= Length a ->
   nth_error (records a) (Z.to_nat (number - 1))
   = nth_error (records b) (Z.to_nat (number - 1))) ->
  Record a number = Record b number.
Proof.
  intros HL Hn.
  destruct (Z.eq_dec (Length a) 0) as [Hl|Hl].
  { rewrite !Record_empty by lia. reflexivity. }
  destruct (Z_lt_le_dec number 1) as [Hlo|Hlo];
    [rewrite !Record_outside by (auto; lia); now rewrite HL|].
  destruct (Z_lt_le_dec (Length a) number) as [Hhi|Hhi];
    [rewrite !Record_outside by (auto; lia); now rewrite HL|].
  rewrite !Record_inside by lia. now rewrite Hn by lia.
Qed.

Lemma In_numbered (k : Z) (l : list string) (r : Rec) :
  In r (numbered k l)
  <-> exists i, nth_error l i = Some (Text r) /\ Number r = k + Z.of_nat i.
Proof.
  rewrite In_iff_nth_error. split; intros [i H]; exists i.
  - rewrite numbered_nth in H.
    destruct (nth_error l i) as [t|]; [|discriminate].
    inversion H; subst. now split.
  - destruct H as [Ht Hn]. rewrite numbered_nth, Ht. cbn [option_map].
    destruct r as [n t]. cbn [Number Text] in *. now subst.
Qed.

Lemma In_numbered_Record (db : Database) (r : Rec) :
  In r (numbered 1 (records db))
  <-> Record db (Number r) = Some (Text r, None).
Proof.
  rewrite In_numbered, Record_some_iff. split.
  - intros [i [Ht Hn]].
    assert (i < List.length (records db))%nat
      by (apply nth_error_Some; congruence).
    rewrite Hn. replace (Z.to_nat (1 + Z.of_nat i - 1)) with i by lia.
    unfold Length, len. split; [lia|exact Ht].
  - intros [Hn Ht]. exists (Z.to_nat (Number r - 1)). split; [exact Ht|lia].
Qed.

Lemma numbered_sorted (k : Z) (l : list string) :
  StronglySorted (fun a b => Number a < Number b) (numbered k l).
Proof.
  revert k. induction l as [|t l IH]; intros k; cbn [numbered].
  - constructor.
  - constructor; [apply IH|].
    apply Forall_forall. intros r Hr. apply In_numbered in Hr as [i [_ Hn]].
    cbn [Number]. lia.
Qed.

Lemma filter_sorted {A : Type} (R : A -> A -> Prop) (f : A -> bool)
    (l : list A) :
  StronglySorted R l -> StronglySorted R (List.filter f l).
Proof.
  induction 1 as [|a l Hs IH Hf]; cbn [List.filter]; [constructor|].
  destruct (f a); [|exact IH].
  constructor; [exact IH|].
  apply Forall_forall. intros x Hx. apply filter_In in Hx as [Hx _].
  rewrite Forall_forall in Hf. now apply Hf.
Qed.

(** ** [All] and [Select] *)

(** X1: [All] returns as many records as [Length] says, the i-th of them
    (from 0) carrying the number [i+1] and the text of [records[i]]; a pair
    of a number and a text is in the result exactly when [Record] returns
    that text for that number. *)
Theorem X1_All_lists_every_record (db : Database) :
  exists recs,
    All db = Some recs
    /\ len recs = Length db
    /\ (forall i, 0 <= i < Length db ->
          exists text, index (records db) i = Some text
                       /\ index recs i = Some (mkRec (i + 1) text))
    /\ (forall number text,
          In (mkRec number text) recs
          <-> Record db number = Some (text, None)).
Proof.
  exists (numbered 1 (records db)).
  split; [apply All_spec|]. split; [apply numbered_len|]. split.
  - intros i Hi.
    destruct (index_in_range (records db) i Hi) as [t [Hx Hn]].
    exists t. split; [exact Hx|].
    destruct (index_in_range (numbered 1 (records db)) i) as [r [Hr Hnr]];
      [rewrite numbered_len; exact Hi|].
    rewrite Hr. rewrite numbered_nth, Hn in Hnr. cbn [option_map] in Hnr.
    inversion Hnr; subst. rewrite Z2Nat.id by lia.
    now rewrite Z.add_comm.
  - intros number text.
    exact (In_numbered_Record db (mkRec number text)).
Qed.

(** X2: [Select] returns the records of [All] that the filter accepts, in
    the order of [All]: strictly ascending numbers; a record is returned
    exactly when the filter accepts it and [Record] returns its text for its
    number. *)
Theorem X2_Select_filters_All (db : Database) (filter : Rec -> bool) :
  exists recs res,
    All db = Some recs
    /\ Select db filter = Some res
    /\ res = List.filter filter recs
    /\ StronglySorted (fun a b => Number a < Number b) res
    /\ (forall r, In r res
                  <-> filter r = true
                      /\ Record db (Number r) = Some (Text r, None)).
Proof.
  exists (numbered 1 (records db)),
         (List.filter filter (numbered 1 (records db))).
  split; [apply All_spec|]. split; [apply Select_spec|].
  split; [reflexivity|]. split.
  - apply filter_sorted, numbered_sorted.
  - intros r. rewrite filter_In, In_numbered_Record. tauto.
Qed.

(** ** Successful updates and deletions *)

Lemma Update_success (db : Database) (number : Z) (text : string)
    (w : os.World) (old : string) (db' : Database) (w' : os.World) :
  Update db number text w = Some ((old, None), db', w') ->
  exists pre suf,
    records db = pre ++ old :: suf /\ number = len pre + 1
    /\ committed db (pre ++ text :: suf) db' w'.
Proof.
  intros H.
  destruct (Z.eq_dec (Length db) 0) as [Hl|Hl].
  { unfold Update in H. rewrite Record_empty in H by assumption.
    discriminate H. }
  destruct (Z_lt_le_dec number 1) as [Hlo|Hlo];
    [unfold Update in H; rewrite Record_outside in H by (auto; lia);
     discriminate H|].
  destruct (Z_lt_le_dec (Length db) number) as [Hhi|Hhi];
    [unfold Update in H; rewrite Record_outside in H by (auto; lia);
     discriminate H|].
  destruct (position_split db number) as [pre [o [suf [Edb En]]]]; [lia|].
  destruct db as [p rs]. cbn [filePath] in Edb. injection Edb as ->.
  rewrite En, Update_at in H.
  destruct (saveToFile_cases p (pre ++ text :: suf) w)
    as [[w1 [E C]]|[e [w1 E]]]; rewrite E in H; inversion H; subst.
  exists pre, suf. cbn [records]. repeat split. exact C.
Qed.

Lemma Delete_success (db : Database) (number : Z) (w : os.World)
    (old : string) (db' : Database) (w' : os.World) :
  Delete db number w = Some ((old, None), db', w') ->
  exists pre suf,
    records db = pre ++ old :: suf /\ number = len pre + 1
    /\ committed db (pre ++ suf) db' w'.
Proof.
  intros H.
  destruct (Z.eq_dec (Length db) 0) as [Hl|Hl].
  { unfold Delete in H. rewrite Record_empty in H by assumption.
    discriminate H. }
  destruct (Z_lt_le_dec number 1) as [Hlo|Hlo];
    [unfold Delete in H; rewrite Record_outside in H by (auto; lia);
     discriminate H|].
  destruct (Z_lt_le_dec (Length db) number) as [Hhi|Hhi];
    [unfold Delete in H; rewrite Record_outside in H by (auto; lia);
     discriminate H|].
  destruct (position_split db number) as [pre [o [suf [Edb En]]]]; [lia|].
  destruct db as [p rs]. cbn [filePath] in Edb. injection Edb as ->.
  rewrite En, Delete_at in H.
  destruct (saveToFile_cases p (pre ++ suf) w)
    as [[w1 [E C]]|[e [w1 E]]]; rewrite E in H; inversion H; subst.
  exists pre, suf. cbn [records]. repeat split. exact C.
Qed.

Lemma nth_error_middle_other {A : Type} (pre suf : list A) (a b : A)
    (i : nat) :
  i <> List.length pre ->
  nth_error (pre ++ a :: suf) i = nth_error (pre ++ b :: suf) i.
Proof.
  intros H. destruct (Nat.lt_ge_cases i (List.length pre)) as [Hlt|Hge].
  - now rewrite !nth_error_app1 by assumption.
  - rewrite !nth_error_app2 by assumption.
    destruct (i - List.length pre)%nat as [|j] eqn:E; [lia|reflexivity].
Qed.

(** X3: a successful [Update(number, text)] returns the text that [Record]
    returned for the number, leaves the length as it was, makes [Record]
    return the new text for the number and what it returned before for every
    other number, and leaves the encoding of the new records in the backing
    file. *)
Theorem X3_Update_replaces_one_record (db : Database) (number : Z)
    (text : string) (w : os.World) (old : string) (db' : Database)
    (w' : os.World) :
  Update db number text w = Some ((old, None), db', w') ->
  Record db number = Some (old, None)
  /\ Length db' = Length db
  /\ Record db' number = Some (text, None)
  /\ (forall i, i <> number -> Record db' i = Record db i)
  /\ os.content w' (filePath db') = Some (encode (records db')).
Proof.
  intros H.
  destruct (Update_success _ _ _ _ _ _ _ H) as [pre [suf [E [En [Edb C]]]]].
  destruct db as [p rs]. cbn [records filePath] in *. subst rs db' number.
  cbn [records filePath].
  assert (HL : Length (mkDatabase p (pre ++ text :: suf))
               = Length (mkDatabase p (pre ++ old :: suf)))
    by (unfold Length; cbn [records]; now rewrite !len_app, !len_cons).
  split; [apply Record_at|]. split; [exact HL|].
  split; [apply Record_at|]. split; [|exact C].
  intros i Hi. apply Record_ext; [exact HL|].
  intros Hr. cbn [records]. apply nth_error_middle_other.
  unfold len in Hi. lia.
Qed.

Lemma X3_Update_replaces_one_record_witness :
  exists w',
    Update (db_of two_lines) 2 "new" (opened two_lines)
    = Some (("ln2"%string, None), mkDatabase "db" ["ln1"; "new"]%string, w')
    /\ Record (db_of two_lines) 2 = Some ("ln2"%string, None)
    /\ Record (mkDatabase "db" ["ln1"; "new"]%string) 2
       = Some ("new"%string, None)
    /\ Record (mkDatabase "db" ["ln1"; "new"]%string) 1
       = Record (db_of two_lines) 1.
Proof.
  eexists. split; [reflexivity|].
  destruct (X3_Update_replaces_one_record
              (db_of two_lines) 2 "new" (opened two_lines) _ _ _ eq_refl)
    as [H1 [_ [H2 [H3 _]]]].
  split; [exact H1|]. split; [exact H2|]. apply H3. discriminate.
Defined.

(** X4: a successful [Delete(number)] returns the text that [Record]
    returned for the number and leaves one record less; [Record] returns
    what it returned before for the numbers below, and for the numbers from
    [number] on what it returned for the next number; the encoding of the
    remaining records is in the backing file. *)
Theorem X4_Delete_removes_one_record (db : Database) (number : Z)
    (w : os.World) (old : string) (db' : Database) (w' : os.World) :
  Delete db number w = Some ((old, None), db', w') ->
  Record db number = Some (old, None)
  /\ Length db' = Length db - 1
  /\ (forall i, 1 <= i < number -> Record db' i = Record db i)
  /\ (forall i, number <= i <= Length db' ->
                Record db' i = Record db (i + 1))
  /\ os.content w' (filePath db') = Some (encode (records db')).
Proof.
  intros H.
  destruct (Delete_success _ _ _ _ _ _ H) as [pre [suf [E [En [Edb C]]]]].
  destruct db as [p rs]. cbn [records filePath] in *. subst rs db' number.
  cbn [records filePath].
  assert (HL : Length (mkDatabase p (pre ++ suf))
               = Length (mkDatabase p (pre ++ old :: suf)) - 1)
    by (unfold Length; cbn [records]; rewrite !len_app, !len_cons; lia).
  pose proof (len_nonneg pre) as Hpre.
  assert (Hlp : Z.to_nat (len pre) = List.length pre)
    by (unfold len; apply Nat2Z.id).
  split; [apply Record_at|]. split; [exact HL|]. split; [|split; [|exact C]].
  - intros i Hi.
    assert (len pre <= Length (mkDatabase p (pre ++ suf)))
      by (unfold Length; cbn [records]; rewrite len_app;
          pose proof (len_nonneg suf); lia).
    rewrite !Record_inside by lia. cbn [records].
    rewrite !nth_error_app1 by lia. reflexivity.
  - intros i Hi. rewrite !Record_inside by lia. cbn [records].
    rewrite !nth_error_app2 by lia.
    replace (Z.to_nat (i + 1 - 1) - List.length pre)%nat
      with (S (Z.to_nat (i - 1) - List.length pre)) by lia.
    reflexivity.
Qed.

Lemma X4_Delete_removes_one_record_witness :
  exists w',
    Delete (db_of two_lines) 1 (opened two_lines)
    = Some (("ln1"%string, None), mkDatabase "db" ["ln2"]%string, w')
    /\ Record (db_of two_lines) 1 = Some ("ln1"%string, None)
    /\ Length (mkDatabase "db" ["ln2"]%string) = Length (db_of two_lines) - 1
    /\ Record (mkDatabase "db" ["ln2"]%string) 1
       = Record (db_of two_lines) (1 + 1).
Proof.
  eexists. split; [reflexivity|].
  destruct (X4_Delete_removes_one_record
              (db_of two_lines) 1 (opened two_lines) _ _ _ eq_refl)
    as [H1 [H2 [_ [H3 _]]]].
  split; [exact H1|]. split; [exact H2|]. apply H3.
  vm_compute; split; discriminate.
Defined.

(** ** Operations that undo each other *)

Lemma Insert_filePath (db : Database) (number : Z) (text : string)
    (w : os.World) (err : option error) (db' : Database) (w' : os.World) :
  Insert db number text w = Some (err, db', w') -> filePath db' = filePath db.
Proof.
  intros H. apply Insert_cases in H as [->|[_ [pre [suf [_ [-> _]]]]]];
    reflexivity.
Qed.

Lemma Update_filePath (db : Database) (number : Z) (text : string)
    (w : os.World) (res : string * option error) (db' : Database)
    (w' : os.World) :
  Update db number text w = Some (res, db', w') -> filePath db' = filePath db.
Proof.
  intros H.
  apply Update_cases in H as [->|[pre [o [suf [_ [_ [_ [-> _]]]]]]]];
    reflexivity.
Qed.

Lemma Delete_filePath (db : Database) (number : Z) (w : os.World)
    (res : string * option error) (db' : Database) (w' : os.World) :
  Delete db number w = Some (res, db', w') -> filePath db' = filePath db.
Proof.
  intros H.
  apply Delete_cases in H as [->|[pre [o [suf [_ [_ [_ [-> _]]]]]]]];
    reflexivity.
Qed.

(** X5: after a successful [Insert(number, text)] that is not the no-op, a
    successful [Delete] at the inserted position returns the inserted text
    and gives back the handle of before the insertion, whatever happened to
    the file system in between. *)
Theorem X5_Delete_undoes_Insert (db : Database) (number : Z) (text : string)
    (w w1 w2 w3 : os.World) (db1 db2 : Database) (removed : string) :
  0 <= number <= Length db ->
  ~ (Length db = 0 /\ text = EmptyString) ->
  Insert db number text w = Some (None, db1, w1) ->
  Delete db1 (inserted_position (Length db) number) w2
  = Some ((removed, None), db2, w3) ->
  removed = text /\ db2 = db.
Proof.
  intros Hn Hnoop HI HD.
  destruct (Insert_success db number text w db1 w1 Hn Hnoop HI)
    as [pre [suf [E [E1 Hp]]]].
  pose proof (Insert_filePath _ _ _ _ _ _ _ HI) as Hpath.
  destruct db as [p rs], db1 as [p1 rs1]. cbn [records filePath] in *.
  subst rs rs1 p1. rewrite <- Hp in HD. rewrite Delete_at in HD.
  destruct (saveToFile p (pre ++ suf) w2) as [[e|] w']; inversion HD.
  now split.
Qed.

Lemma X5_Delete_undoes_Insert_witness :
  0 <= 2 <= Length (db_of two_lines)
  /\ ~ (Length (db_of two_lines) = 0 /\ "text"%string = EmptyString)
  /\ exists w1 w3,
       Insert (db_of two_lines) 2 "text" (opened two_lines)
       = Some (None, mkDatabase "db" ["ln1"; "text"; "ln2"]%string, w1)
       /\ Delete (mkDatabase "db" ["ln1"; "text"; "ln2"]%string)
                 (inserted_position (Length (db_of two_lines)) 2) w1
          = Some (("text"%string, None), db_of two_lines, w3)
       /\ "text"%string = "text"%string /\ db_of two_lines = db_of two_lines.
Proof.
  assert (Hn : 0 <= 2 <= Length (db_of two_lines))
    by (vm_compute; split; discriminate).
  assert (Hnoop : ~ (Length (db_of two_lines) = 0
                     /\ "text"%string = EmptyString))
    by (intros [_ H]; discriminate H).
  split; [exact Hn|]. split; [exact Hnoop|].
  match eval cbv in (Insert (db_of two_lines) 2 "text" (opened two_lines))
  with Some (_, ?DB1, ?W1) =>
    match eval cbv in (Delete DB1 2 W1) with Some (_, _, ?W3) =>
      exists W1, W3; split; [reflexivity|]; split; [reflexivity|];
      apply (X5_Delete_undoes_Insert (db_of two_lines) 2 "text"
               (opened two_lines) W1 W1 W3 DB1 (db_of two_lines) "text"
               Hn Hnoop); reflexivity
    end
  end.
Defined.

(** X6: after a successful [Update(number, text)], a successful
    [Update(number, old)] with the text the first one returned returns
    [text] and gives back the handle of before the first update. *)
Theorem X6_Update_back_restores (db : Database) (number : Z)
    (text old back : string) (w w1 w2 w3 : os.World) (db1 db2 : Database) :
  Update db number text w = Some ((old, None), db1, w1) ->
  Update db1 number old w2 = Some ((back, None), db2, w3) ->
  back = text /\ db2 = db.
Proof.
  intros H1 H2.
  destruct (Update_success _ _ _ _ _ _ _ H1) as [pre [suf [E [En [Edb C]]]]].
  destruct db as [p rs]. cbn [records filePath] in *. subst rs db1 number.
  rewrite Update_at in H2.
  destruct (saveToFile p (pre ++ old :: suf) w2) as [[e|] w']; inversion H2.
  now split.
Qed.

Lemma X6_Update_back_restores_witness :
  exists w1 w3,
    Update (db_of two_lines) 1 "new" (opened two_lines)
    = Some (("ln1"%string, None), mkDatabase "db" ["new"; "ln2"]%string, w1)
    /\ Update (mkDatabase "db" ["new"; "ln2"]%string) 1 "ln1" w1
       = Some (("new"%string, None), db_of two_lines, w3)
    /\ "new"%string = "new"%string /\ db_of two_lines = db_of two_lines.
Proof.
  match eval cbv in (Update (db_of two_lines) 1 "new" (opened two_lines))
  with Some (_, ?DB1, ?W1) =>
    match eval cbv in (Update DB1 1 "ln1" W1) with Some (_, _, ?W3) =>
      exists W1, W3; split; [reflexivity|]; split; [reflexivity|];
      apply (X6_Update_back_restores (db_of two_lines) 1 "new" "ln1" "new"
               (opened two_lines) W1 W1 W3 DB1 (db_of two_lines));
      reflexivity
    end
  end.
Defined.

(** ** Opening and opening again *)

Lemma decode_not_one_empty (buf : string) : decode buf <> [EmptyString].
Proof.
  intros H. pose proof (encode_decode buf) as E. rewrite H in E.
  cbn in E. subst buf. discriminate H.
Qed.

(** X7: [Open] returns a handle and no error when the file can be read, no
    handle and the load error with the cause when it is missing or cannot be
    read; in no case does it change a file.  The records of a fresh handle
    have no separator, are not the single empty record, and encode to the
    bytes of the file. *)
Theorem X7_Open_outcomes (path : string) (w : os.World) :
  (forall f, os.files w path = Some f -> os.readable f = true ->
     exists w',
       Open path w = (Some (mkDatabase path (decode (os.data f))), None, w')
       /\ os.files w' = os.files w
       /\ Forall no_separator (decode (os.data f))
       /\ decode (os.data f) <> [EmptyString]
       /\ encode (decode (os.data f)) = os.data f)
  /\ (forall f, os.files w path = Some f -> os.readable f = false ->
        exists w',
          Open path w = (None, Some (ErrLoad path os.EACCES), w')
          /\ os.files w' = os.files w)
  /\ (os.files w path = None ->
        exists w',
          Open path w = (None, Some (ErrLoad path os.ENOENT), w')
          /\ os.files w' = os.files w).
Proof.
  unfold Open, loadFromFile, os.ReadFile. split; [|split].
  - intros f Hf Hr. rewrite Hf, Hr. eexists. split; [reflexivity|].
    split; [reflexivity|]. split; [apply decode_no_separator|].
    split; [apply decode_not_one_empty|apply encode_decode].
  - intros f Hf Hr. rewrite Hf, Hr. eexists. split; reflexivity.
  - intros Hf. rewrite Hf. eexists. split; reflexivity.
Qed.

Lemma X7_Open_outcomes_witness :
  (exists w',
     Open "db" (world_of two_lines)
     = (Some (mkDatabase "db" (decode two_lines)), None, w')
     /\ os.files w' = os.files (world_of two_lines))
  /\ (exists w',
        Open "/tmp/no-such-file-or-directory" (world_of two_lines)
        = (None,
           Some (ErrLoad "/tmp/no-such-file-or-directory" os.ENOENT), w')
        /\ os.files w' = os.files (world_of two_lines)).
Proof.
  split.
  - destruct (proj1 (X7_Open_outcomes "db" (world_of two_lines))
                (os.mkfile two_lines true true) eq_refl eq_refl)
      as [w' [HO [HF _]]].
    exists w'. split; [exact HO|exact HF].
  - exact (proj2 (proj2 (X7_Open_outcomes "/tmp/no-such-file-or-directory"
                           (world_of two_lines))) eq_refl).
Defined.

Lemma Insert_committed (db : Database) (number : Z) (text : string)
    (w : os.World) (db' : Database) (w' : os.World) :
  ~ (Length db = 0 /\ text = EmptyString) ->
  Insert db number text w = Some (None, db', w') ->
  exists pre suf,
    records db = pre ++ suf /\ committed db (pre ++ text :: suf) db' w'.
Proof.
  intros Hnoop H.
  assert (Hnoop' : Length db <> 0 \/ text <> EmptyString)
    by (destruct (Z.eq_dec (Length db) 0);
        destruct (string_dec text EmptyString); tauto).
  destruct (Z_lt_le_dec number 0) as [Hlo|Hlo];
    [rewrite Insert_outside in H by lia; discriminate H|].
  destruct (Z_lt_le_dec (Length db) number) as [Hhi|Hhi];
    [rewrite Insert_outside in H by lia; discriminate H|].
  destruct (Z.eq_dec number 0) as [->|Hn].
  - rewrite Insert_at_end in H by assumption.
    destruct (saveToFile_cases (filePath db) (records db ++ [text]) w)
      as [[w1 [E C]]|[e [w1 E]]]; rewrite E in H; inversion H; subst.
    exists (records db), []. rewrite app_nil_r. repeat split. exact C.
  - destruct (position_split db number) as [pre [old [suf [Edb En]]]]; [lia|].
    destruct db as [p rs]. cbn [filePath] in *. injection Edb as ->.
    rewrite En, Insert_at in H by discriminate.
    destruct (saveToFile_cases p (pre ++ text :: old :: suf) w)
      as [[w1 [E C]]|[e [w1 E]]]; rewrite E in H; inversion H; subst.
    exists pre, (old :: suf). cbn [records]. repeat split. exact C.
Qed.

Lemma Open_consistent_handle (db : Database) (w : os.World) (f : os.file) :
  consistent db w ->
  Forall no_separator (records db) ->
  records db <> [EmptyString] ->
  os.files w (filePath db) = Some f ->
  os.readable f = true ->
  exists w', Open (filePath db) w = (Some db, None, w').
Proof.
  intros Hc Hs Hne Hf Hr.
  unfold consistent, os.content in Hc. rewrite Hf in Hc. cbn in Hc.
  injection Hc as Hd.
  unfold Open, loadFromFile, os.ReadFile. rewrite Hf, Hr, Hd.
  rewrite (decode_encode _ Hs Hne).
  rewrite Database_eta. eexists. reflexivity.
Qed.

(** X8: after an [Insert] (the no-op apart), an [Update] or a [Delete] that
    succeeds on a store of separator-free records, the text being
    separator-free too, opening the backing file again, when it can be read,
    returns the very handle in memory, unless its records are the single
    empty record. *)
Theorem X8_Open_again_returns_the_handle (db : Database) (number : Z)
    (text : string) (w : os.World) (db' : Database) (w' : os.World)
    (f : os.file) :
  Forall no_separator (records db) ->
  no_separator text ->
  (~ (Length db = 0 /\ text = EmptyString)
   /\ Insert db number text w = Some (None, db', w'))
  \/ (exists old, Update db number text w = Some ((old, None), db', w'))
  \/ (exists old, Delete db number w = Some ((old, None), db', w')) ->
  records db' <> [EmptyString] ->
  os.files w' (filePath db') = Some f ->
  os.readable f = true ->
  exists w'', Open (filePath db') w' = (Some db', None, w'').
Proof.
  intros Hs Ht Hop Hne Hf Hr.
  assert (Hc : consistent db' w' /\ Forall no_separator (records db')).
  { destruct Hop as [[Hnoop HI]|[[old HU]|[old HD]]].
    - destruct (Insert_committed _ _ _ _ _ _ Hnoop HI) as [pre [suf [E C]]].
      split; [exact (committed_consistent _ _ _ _ C)|].
      destruct C as [-> _]. cbn [records]. rewrite E in Hs.
      apply Forall_app in Hs as [Hp Hsuf].
      apply Forall_app. split; [assumption|]. now constructor.
    - destruct (Update_success _ _ _ _ _ _ _ HU) as [pre [suf [E [_ C]]]].
      split; [exact (committed_consistent _ _ _ _ C)|].
      destruct C as [-> _]. cbn [records]. rewrite E in Hs.
      apply Forall_app in Hs as [Hp Hsuf]. inversion Hsuf; subst.
      apply Forall_app. split; [assumption|]. now constructor.
    - destruct (Delete_success _ _ _ _ _ _ HD) as [pre [suf [E [_ C]]]].
      split; [exact (committed_consistent _ _ _ _ C)|].
      destruct C as [-> _]. cbn [records]. rewrite E in Hs.
      apply Forall_app in Hs as [Hp Hsuf]. inversion Hsuf; subst.
      apply Forall_app. now split. }
  destruct Hc as [Hc Hs'].
  exact (Open_consistent_handle db' w' f Hc Hs' Hne Hf Hr).
Qed.

Lemma X8_Open_again_returns_the_handle_witness :
  Forall no_separator (records (db_of two_lines))
  /\ no_separator "text"
  /\ exists w1 w',
       Insert (db_of two_lines) 0 "text" (opened two_lines)
       = Some (None, mkDatabase "db" ["ln1"; "ln2"; "text"]%string, w1)
       /\ Open "db" w1
          = (Some (mkDatabase "db" ["ln1"; "ln2"; "text"]%string), None, w').
Proof.
  assert (Hs : Forall no_separator (records (db_of two_lines)))
    by (repeat constructor).
  assert (Ht : no_separator "text") by reflexivity.
  split; [exact Hs|]. split; [exact Ht|].
  match eval cbv in (Insert (db_of two_lines) 0 "text" (opened two_lines))
  with Some (_, ?DB1, ?W1) =>
    assert (HI : Insert (db_of two_lines) 0 "text" (opened two_lines)
                 = Some (None, DB1, W1)) by reflexivity;
    destruct (X8_Open_again_returns_the_handle
                (db_of two_lines) 0 "text" (opened two_lines) DB1 W1
                (os.mkfile (encode (records DB1)) true true) Hs Ht)
      as [w' HO];
      [left; split; [intros [H _]; discriminate H|exact HI]
      |discriminate|reflexivity|reflexivity|];
    exists W1, w'; split; [exact HI|exact HO]
  end.
Defined.

(** ** What a mutating call does to the file system *)

Lemma saveToFile_frame (p : string) (rs : list string) (w : os.World)
    (e : option error) (w' : os.World) :
  saveToFile p rs w = (e, w') ->
  (forall name, name <> p -> os.files w' name = os.files w name)
  /\ os.calls w' = os.SysWrite p (encode rs) :: os.calls w.
Proof.
  unfold saveToFile, os.WriteFile. intros H.
  assert (Hput : forall (f : os.file) name,
             name <> p -> os.put (os.files w) p f name = os.files w name).
  { intros f name Hn. unfold os.put.
    destruct (String.eqb name p) eqn:E; [|reflexivity].
    apply String.eqb_eq in E. contradiction. }
  destruct (os.open_for_writing p false false w) as [[r wr]|];
    [destruct (os.faults w p)|];
    inversion H; subst; cbn [os.files os.calls]; split; auto.
Qed.

Lemma Insert_world (db : Database) (number : Z) (text : string)
    (w : os.World) (err : option error) (db' : Database) (w' : os.World) :
  Insert db number text w = Some (err, db', w') ->
  w' = w \/ exists rs e, saveToFile (filePath db) rs w = (e, w').
Proof.
  intros H.
  destruct (Z_lt_le_dec number 0) as [Hlo|Hlo];
    [rewrite Insert_outside in H by lia; inversion H; auto|].
  destruct (Z_lt_le_dec (Length db) number) as [Hhi|Hhi];
    [rewrite Insert_outside in H by lia; inversion H; auto|].
  destruct (Z.eq_dec number 0) as [->|Hn].
  - destruct (Z.eq_dec (Length db) 0) as [Hl|Hl];
      [destruct (string_dec text EmptyString) as [->|Ht]|].
    + rewrite Insert_noop in H by assumption. inversion H; auto.
    + rewrite Insert_at_end in H by auto.
      destruct (saveToFile (filePath db) (records db ++ [text]) w)
        as [[e|] w1] eqn:E; inversion H; subst; right; eauto.
    + rewrite Insert_at_end in H by auto.
      destruct (saveToFile (filePath db) (records db ++ [text]) w)
        as [[e|] w1] eqn:E; inversion H; subst; right; eauto.
  - destruct (position_split db number) as [pre [old [suf [Edb En]]]]; [lia|].
    destruct db as [p rs]. cbn [filePath] in *. injection Edb as ->.
    rewrite En, Insert_at in H by discriminate.
    destruct (saveToFile p (pre ++ text :: old :: suf) w)
      as [[e|] w1] eqn:E; inversion H; subst; right; eauto.
Qed.

Lemma Update_world (db : Database) (number : Z) (text : string)
    (w : os.World) (res : string * option error) (db' : Database)
    (w' : os.World) :
  Update db number text w = Some (res, db', w') ->
  w' = w \/ exists rs e, saveToFile (filePath db) rs w = (e, w').
Proof.
  intros H.
  destruct (Z.eq_dec (Length db) 0) as [Hl|Hl].
  { unfold Update in H. rewrite Record_empty in H by assumption.
    inversion H; auto. }
  destruct (Z_lt_le_dec number 1) as [Hlo|Hlo];
    [unfold Update in H; rewrite Record_outside in H by (auto; lia);
     inversion H; auto|].
  destruct (Z_lt_le_dec (Length db) number) as [Hhi|Hhi];
    [unfold Update in H; rewrite Record_outside in H by (auto; lia);
     inversion H; auto|].
  destruct (position_split db number) as [pre [old [suf [Edb En]]]]; [lia|].
  destruct db as [p rs]. cbn [filePath] in *. injection Edb as ->.
  rewrite En, Update_at in H.
  destruct (saveToFile p (pre ++ text :: suf) w)
    as [[e|] w1] eqn:E; inversion H; subst; right; eauto.
Qed.

Lemma Delete_world (db : Database) (number : Z) (w : os.World)
    (res : string * option error) (db' : Database) (w' : os.World) :
  Delete db number w = Some (res, db', w') ->
  w' = w \/ exists rs e, saveToFile (filePath db) rs w = (e, w').
Proof.
  intros H.
  destruct (Z.eq_dec (Length db) 0) as [Hl|Hl].
  { unfold Delete in H. rewrite Record_empty in H by assumption.
    inversion H; auto. }
  destruct (Z_lt_le_dec number 1) as [Hlo|Hlo];
    [unfold Delete in H; rewrite Record_outside in H by (auto; lia);
     inversion H; auto|].
  destruct (Z_lt_le_dec (Length db) number) as [Hhi|Hhi];
    [unfold Delete in H; rewrite Record_outside in H by (auto; lia);
     inversion H; auto|].
  destruct (position_split db number) as [pre [old [suf [Edb En]]]]; [lia|].
  destruct db as [p rs]. cbn [filePath] in *. injection Edb as ->.
  rewrite En, Delete_at in H.
  destruct (saveToFile p (pre ++ suf) w)
    as [[e|] w1] eqn:E; inversion H; subst; right; eauto.
Qed.

Lemma world_frame (p : string) (w w' : os.World) :
  (w' = w \/ exists rs e, saveToFile p rs w = (e, w')) ->
  (forall name, name <> p -> os.files w' name = os.files w name)
  /\ (os.calls w' = os.calls w
      \/ exists bytes, os.calls w' = os.SysWrite p bytes :: os.calls w).
Proof.
  intros [->|[rs [e H]]]; [split; auto|].
  apply saveToFile_frame in H as [Hf Hc]. split; [exact Hf|]. right. eauto.
Qed.

(** X9: [Insert], [Update] and [Delete], whether they succeed or fail,
    keep the path of the handle, leave every file other than the backing
    file as it was, and make at most one call to the file system, a write of
    the backing file. *)
Theorem X9_only_the_backing_file_is_written (db : Database) (number : Z)
    (text : string) (w : os.World) :
  (forall err db' w',
      Insert db number text w = Some (err, db', w') ->
      filePath db' = filePath db
      /\ (forall name, name <> filePath db ->
                       os.files w' name = os.files w name)
      /\ (os.calls w' = os.calls w
          \/ exists bytes,
               os.calls w' = os.SysWrite (filePath db) bytes :: os.calls w))
  /\ (forall res db' w',
         Update db number text w = Some (res, db', w') ->
         filePath db' = filePath db
         /\ (forall name, name <> filePath db ->
                          os.files w' name = os.files w name)
         /\ (os.calls w' = os.calls w
             \/ exists bytes,
                  os.calls w' = os.SysWrite (filePath db) bytes :: os.calls w))
  /\ (forall res db' w',
         Delete db number w = Some (res, db', w') ->
         filePath db' = filePath db
         /\ (forall name, name <> filePath db ->
                          os.files w' name = os.files w name)
         /\ (os.calls w' = os.calls w
             \/ exists bytes,
                  os.calls w' = os.SysWrite (filePath db) bytes :: os.calls w)).
Proof.
  split; [|split]; intros r db' w' H.
  - split; [exact (Insert_filePath _ _ _ _ _ _ _ H)|].
    apply world_frame. exact (Insert_world _ _ _ _ _ _ _ H).
  - split; [exact (Update_filePath _ _ _ _ _ _ _ H)|].
    apply world_frame. exact (Update_world _ _ _ _ _ _ _ H).
  - split; [exact (Delete_filePath _ _ _ _ _ _ H)|].
    apply world_frame. exact (Delete_world _ _ _ _ _ _ H).
Qed.

Lemma X9_only_the_backing_file_is_written_witness :
  exists db' w',
    Delete (db_of two_lines) 2 (opened two_lines)
    = Some (("ln2"%string, None), db', w')
    /\ filePath db' = filePath (db_of two_lines)
    /\ os.files w' "other"%string = os.files (opened two_lines) "other"%string.
Proof.
  match eval cbv in (Delete (db_of two_lines) 2 (opened two_lines))
  with Some (_, ?DB1, ?W1) =>
    assert (HD : Delete (db_of two_lines) 2 (opened two_lines)
                 = Some (("ln2"%string, None), DB1, W1)) by reflexivity;
    destruct (proj2 (proj2 (X9_only_the_backing_file_is_written
                              (db_of two_lines) 2 "" (opened two_lines)))
                _ _ _ HD) as [HP [HF _]];
    exists DB1, W1; split; [exact HD|]; split; [exact HP|];
    apply HF; discriminate
  end.
Defined.

(** X10: when the write goes through, saving to a file the records that
    were loaded from it leaves the bytes of the file as they were. *)
Theorem X10_load_then_save_keeps_the_bytes (path : string)
    (rs : list string) (w w1 w2 : os.World) :
  loadFromFile path w = (rs, None, w1) ->
  saveToFile path rs w1 = (None, w2) ->
  os.content w2 path = os.content w path.
Proof.
  unfold loadFromFile, os.ReadFile. intros HL HS.
  destruct (os.files w path) as [f|] eqn:Hf; [|discriminate].
  destruct (os.readable f); [|discriminate].
  inversion HL; subst rs w1. clear HL.
  destruct (saveToFile_cases path (decode (os.data f))
              (os.mkWorld (os.files w) (os.SysRead path :: os.calls w)
                          (os.faults w)))
    as [[w' [E C]]|[e [w' E]]]; rewrite E in HS; inversion HS; subst.
  rewrite C, encode_decode. unfold os.content. now rewrite Hf.
Qed.

Lemma X10_load_then_save_keeps_the_bytes_witness :
  exists w1 w2,
    loadFromFile "db" (world_of two_lines) = (decode two_lines, None, w1)
    /\ saveToFile "db" (decode two_lines) w1 = (None, w2)
    /\ os.content w2 "db" = os.content (world_of two_lines) "db".
Proof.
  match eval cbv in (loadFromFile "db" (world_of two_lines))
  with (_, _, ?W1) =>
    match eval cbv in (saveToFile "db" (decode two_lines) W1)
    with (_, ?W2) =>
      exists W1, W2; split; [reflexivity|]; split; [reflexivity|];
      apply (X10_load_then_save_keeps_the_bytes "db" (decode two_lines)
               (world_of two_lines) W1 W2); reflexivity
    end
  end.
Defined.

(** ** When a mutating call succeeds *)

Lemma Length_middle (p : string) (pre suf : list string) (old : string) :
  1 <= len pre + 1 <= Length (mkDatabase p (pre ++ old :: suf)).
Proof.
  unfold Length. cbn [records]. rewrite len_app, len_cons.
  pose proof (len_nonneg pre). pose proof (len_nonneg suf). lia.
Qed.

(** X11: [Update] and [Delete] succeed exactly when the number is in
    [[1, Length()]] and the write of the backing file goes through;
    [Insert] succeeds exactly when the number is in [[0, Length()]] and
    either the store has no record and the text is empty, or the write goes
    through. *)
Theorem X11_when_mutations_succeed (db : Database) (number : Z)
    (text : string) (w : os.World) :
  ((exists db' w', Insert db number text w = Some (None, db', w'))
   <-> 0 <= number <= Length db
       /\ ((Length db = 0 /\ text = EmptyString)
           \/ can_write w (filePath db) = true))
  /\ ((exists old db' w',
         Update db number text w = Some ((old, None), db', w'))
      <-> 1 <= number <= Length db /\ can_write w (filePath db) = true)
  /\ ((exists old db' w', Delete db number w = Some ((old, None), db', w'))
      <-> 1 <= number <= Length db /\ can_write w (filePath db) = true).
Proof.
  split; [|split]; split.
  - intros [db' [w' H]].
    destruct (Z_lt_le_dec number 0) as [Hlo|Hlo];
      [rewrite Insert_outside in H by lia; discriminate H|].
    destruct (Z_lt_le_dec (Length db) number) as [Hhi|Hhi];
      [rewrite Insert_outside in H by lia; discriminate H|].
    split; [lia|].
    destruct (can_write w (filePath db)) eqn:Hw; [now right|left].
    destruct (Z.eq_dec (Length db) 0) as [Hl|Hl];
      [destruct (string_dec text EmptyString) as [Ht|Ht]; [now split|]|].
    + exfalso. assert (number = 0) by lia. subst number.
      rewrite Insert_at_end, saveToFile_failed in H by auto. discriminate H.
    + exfalso. destruct (Z.eq_dec number 0) as [->|Hn0].
      * rewrite Insert_at_end, saveToFile_failed in H by auto.
        discriminate H.
      * destruct (position_split db number) as [pre [o [suf [Edb En]]]];
          [lia|].
        destruct db as [p rs]. cbn [filePath] in *. injection Edb as ->.
        rewrite En, Insert_at, saveToFile_failed in H
          by (discriminate || exact Hw).
        discriminate H.
  - intros [Hn [[Hl Ht]|Hw]].
    + subst text. assert (number = 0) by lia. subst number.
      rewrite Insert_noop by assumption. eauto.
    + destruct (Z.eq_dec number 0) as [->|Hn0].
      * destruct (Z.eq_dec (Length db) 0) as [Hl|Hl];
          [destruct (string_dec text EmptyString) as [->|Ht]|].
        -- rewrite Insert_noop by assumption. eauto.
        -- rewrite Insert_at_end by auto.
           destruct (saveToFile_done (filePath db) (records db ++ [text]) w Hw)
             as [w' [E _]].
           rewrite E. eauto.
        -- rewrite Insert_at_end by auto.
           destruct (saveToFile_done (filePath db) (records db ++ [text]) w Hw)
             as [w' [E _]].
           rewrite E. eauto.
      * destruct (position_split db number) as [pre [o [suf [Edb En]]]];
          [lia|].
        destruct db as [p rs]. cbn [filePath] in *. injection Edb as ->.
        rewrite En, Insert_at by discriminate.
        destruct (saveToFile_done p (pre ++ text :: o :: suf) w Hw)
          as [w' [E _]].
        rewrite E. eauto.
  - intros [old [db' [w' H]]].
    destruct (Update_success _ _ _ _ _ _ _ H) as [pre [suf [E [En _]]]].
    destruct db as [p rs]. cbn [records filePath] in *. subst rs number.
    split; [apply Length_middle|].
    destruct (can_write w p) eqn:Hw; [reflexivity|].
    rewrite Update_at, saveToFile_failed in H by exact Hw. discriminate H.
  - intros [Hn Hw].
    destruct (position_split db number Hn) as [pre [o [suf [Edb En]]]].
    destruct db as [p rs]. cbn [filePath] in *. injection Edb as ->.
    rewrite En, Update_at.
    destruct (saveToFile_done p (pre ++ text :: suf) w Hw) as [w' [E _]].
    rewrite E. eauto.
  - intros [old [db' [w' H]]].
    destruct (Delete_success _ _ _ _ _ _ H) as [pre [suf [E [En _]]]].
    destruct db as [p rs]. cbn [records filePath] in *. subst rs number.
    split; [apply Length_middle|].
    destruct (can_write w p) eqn:Hw; [reflexivity|].
    rewrite Delete_at, saveToFile_failed in H by exact Hw. discriminate H.
  - intros [Hn Hw].
    destruct (position_split db number Hn) as [pre [o [suf [Edb En]]]].
    destruct db as [p rs]. cbn [filePath] in *. injection Edb as ->.
    rewrite En, Delete_at.
    destruct (saveToFile_done p (pre ++ suf) w Hw) as [w' [E _]].
    rewrite E. eauto.
Qed.

Lemma X11_when_mutations_succeed_witness :
  (1 <= 2 <= Length (db_of two_lines)
   /\ can_write (opened two_lines) (filePath (db_of two_lines)) = true
   /\ exists old db' w',
        Update (db_of two_lines) 2 "new" (opened two_lines)
        = Some ((old, None), db', w'))
  /\ ((exists old db' w',
         Delete (db_of two_lines) 2 (opened two_lines)
         = Some ((old, None), db', w'))
      /\ 1 <= 2 <= Length (db_of two_lines)).
Proof.
  assert (Hn : 1 <= 2 <= Length (db_of two_lines))
    by (vm_compute; split; discriminate).
  assert (Hw : can_write (opened two_lines) (filePath (db_of two_lines))
               = true) by reflexivity.
  split.
  - split; [exact Hn|]. split; [exact Hw|].
    exact (proj2 (proj1 (proj2 (X11_when_mutations_succeed
                                  (db_of two_lines) 2 "new"
                                  (opened two_lines))))
             (conj Hn Hw)).
  - assert (HD : exists old db' w',
               Delete (db_of two_lines) 2 (opened two_lines)
               = Some ((old, None), db', w'))
      by (do 3 eexists; reflexivity).
    split; [exact HD|].
    exact (proj1 (proj1 (proj2 (proj2 (X11_when_mutations_succeed
                                         (db_of two_lines) 2 ""
                                         (opened two_lines)))) HD)).
Defined.

(** X12: a successful [Insert] leaves one record more than before, whatever
    the number, unless the store had no record and the text was empty, when
    it leaves none. *)
Theorem X12_Insert_adds_one_record (db : Database) (number : Z)
    (text : string) (w : os.World) (db' : Database) (w' : os.World) :
  Insert db number text w = Some (None, db', w') ->
  Length db'
  = Length db
    + (if (Length db =? 0) && String.eqb text EmptyString then 0 else 1).
Proof.
  intros H.
  destruct (Z_lt_le_dec number 0) as [Hlo|Hlo];
    [rewrite Insert_outside in H by lia; discriminate H|].
  destruct (Z_lt_le_dec (Length db) number) as [Hhi|Hhi];
    [rewrite Insert_outside in H by lia; discriminate H|].
  destruct ((Length db =? 0) && String.eqb text EmptyString) eqn:E.
  - apply andb_true_iff in E as [El Et].
    apply Z.eqb_eq in El. apply String.eqb_eq in Et. subst text.
    assert (number = 0) by lia. subst number.
    rewrite Insert_noop in H by assumption. inversion H; subst. lia.
  - assert (Hnoop : ~ (Length db = 0 /\ text = EmptyString)).
    { intros [Hl Ht]. apply andb_false_iff in E as [E|E].
      - apply Z.eqb_neq in E. contradiction.
      - apply String.eqb_neq in E. contradiction. }
    destruct (Insert_success db number text w db' w' (conj Hlo Hhi) Hnoop H)
      as [pre [suf [E0 [E1 _]]]].
    unfold Length. rewrite E0, E1, !len_app, len_cons. lia.
Qed.

Lemma X12_Insert_adds_one_record_witness :
  exists w',
    Insert (db_of two_lines) 0 "text" (opened two_lines)
    = Some (None, mkDatabase "db" ["ln1"; "ln2"; "text"]%string, w')
    /\ Length (mkDatabase "db" ["ln1"; "ln2"; "text"]%string)
       = Length (db_of two_lines) + 1.
Proof.
  eexists. split; [reflexivity|].
  exact (X12_Insert_adds_one_record (db_of two_lines) 0 "text"
           (opened two_lines) _ _ eq_refl).
Defined.

(** ** Package assertive: the line of the caller *)

Section SplitN.

Import strings.

Variable c : ascii.

Lemma splitn_not_nil (s : string) (k : nat) : splitn s c k <> [].
Proof.
  destruct s as [|a s]; [discriminate|]. destruct k as [|k]; [discriminate|].
  cbn [splitn]. destruct (Ascii.eqb a c); [discriminate|].
  destruct (splitn s c (S k)); discriminate.
Qed.

Lemma splitn_length (s : string) (k : nat) :
  List.length (splitn s c k) = S (Nat.min k (Count s c)).
Proof.
  revert k. induction s as [|a s IH]; intros k.
  - cbn. now rewrite Nat.min_0_r.
  - destruct k as [|k]; [reflexivity|]. cbn [splitn Count].
    destruct (Ascii.eqb a c).
    + cbn [List.length]. rewrite IH. reflexivity.
    + specialize (IH (S k)).
      destruct (splitn s c (S k)) as [|h t] eqn:E;
        [now apply splitn_not_nil in E|].
      exact IH.
Qed.

Lemma splitn_nth (s : string) (k i : nat) :
  (i < k)%nat -> nth_error (splitn s c k) i = nth_error (Split s c) i.
Proof.
  revert k i. induction s as [|a s IH]; intros k i Hi; [reflexivity|].
  destruct k as [|k]; [lia|]. cbn [splitn Split].
  destruct (Ascii.eqb a c).
  - destruct i as [|i]; [reflexivity|]. cbn [nth_error]. apply IH. lia.
  - pose proof (IH (S k) 0%nat ltac:(lia)) as H0.
    pose proof (fun j (Hj : (S j < S k)%nat) => IH (S k) (S j) Hj) as HS.
    destruct (splitn s c (S k)) as [|h t] eqn:E1;
      [now apply splitn_not_nil in E1|].
    destruct (Split s c) as [|h' t'] eqn:E2;
      [now apply Split_not_nil in E2|].
    cbn [nth_error] in H0. injection H0 as ->.
    destruct i as [|i]; [reflexivity|]. cbn [nth_error].
    exact (HS i Hi).
Qed.

End SplitN.

Lemma getLine_of_frame {T : Type} `{assertive.miniT T} (t : T)
    (frame : assertive.Frame) (w : os.World) (f : os.file) :
  os.files w (assertive.File frame) = Some f ->
  os.readable f = true ->
  assertive.getLine t (Some frame) w
  = (line <- index (strings.SplitN (os.data f) "010"%char
                      (assertive.Line frame + 1))
                   (assertive.Line frame - 1) ;;
     ret (line, assertive.Helper t,
          os.mkWorld (os.files w)
            (os.SysRead (assertive.File frame) :: os.calls w)
            (os.faults w))).
Proof.
  intros Hf Hr. unfold assertive.getLine, os.ReadFile. now rewrite Hf, Hr.
Qed.

Lemma SplitN_line (text : string) (line : Z) :
  1 <= line <= Z.of_nat (strings.Count text "010"%char) + 1 ->
  exists l,
    index (strings.SplitN text "010"%char (line + 1)) (line - 1) = Some l
    /\ index (strings.Split text "010"%char) (line - 1) = Some l.
Proof.
  intros H. unfold strings.SplitN.
  replace (line + 1 =? 0) with false by (symmetry; apply Z.eqb_neq; lia).
  replace (line + 1 <? 0) with false by (symmetry; apply Z.ltb_ge; lia).
  replace (line + 1 - 1) with line by lia.
  destruct (index_in_range (strings.Split text "010"%char) (line - 1))
    as [l [Hi Hn]].
  { unfold len. rewrite Split_length. lia. }
  exists l. split; [|exact Hi].
  destruct (index_in_range
              (strings.splitn text "010"%char (Z.to_nat line)) (line - 1))
    as [l' [Hi' Hn']].
  { unfold len. rewrite splitn_length. lia. }
  rewrite Hi'. rewrite splitn_nth in Hn' by lia. congruence.
Qed.

Lemma SplitN_no_line (text : string) (line : Z) :
  line < 1 \/ line > Z.of_nat (strings.Count text "010"%char) + 1 ->
  index (strings.SplitN text "010"%char (line + 1)) (line - 1) = None.
Proof.
  intros [H|H]; apply index_out_of_range; [left; lia|right].
  unfold strings.SplitN.
  replace (line + 1 =? 0) with false by (symmetry; apply Z.eqb_neq; lia).
  replace (line + 1 <? 0) with false by (symmetry; apply Z.ltb_ge; lia).
  unfold len. rewrite splitn_length. lia.
Qed.

(** X13: when the frame of the caller names a source file that can be read,
    [getLine] returns the line of that number, the same that splitting the
    whole file gives, without changing a file, provided the file has that
    many lines; when the number is below 1 or above the number of lines,
    [parts[frame.Line-1]] is out of range and [getLine] panics. *)
Theorem X13_getLine_returns_the_line {T : Type} `{assertive.miniT T} (t : T)
    (frame : assertive.Frame) (w : os.World) (f : os.file) :
  os.files w (assertive.File frame) = Some f ->
  os.readable f = true ->
  (1 <= assertive.Line frame
        <= Z.of_nat (strings.Count (os.data f) "010"%char) + 1 ->
   exists line w',
     assertive.getLine t (Some frame) w
     = Some (line, assertive.Helper t, w')
     /\ index (strings.Split (os.data f) "010"%char) (assertive.Line frame - 1)
        = Some line
     /\ os.files w' = os.files w)
  /\ (assertive.Line frame < 1
      \/ assertive.Line frame
         > Z.of_nat (strings.Count (os.data f) "010"%char) + 1 ->
      assertive.getLine t (Some frame) w = None).
Proof.
  intros Hf Hr. rewrite (getLine_of_frame t frame w f Hf Hr). split.
  - intros Hl. destruct (SplitN_line (os.data f) _ Hl) as [l [H1 H2]].
    rewrite H1. cbn [bind ret]. do 2 eexists. split; [reflexivity|].
    split; [exact H2|reflexivity].
  - intros Hl. now rewrite (SplitN_no_line (os.data f) _ Hl).
Qed.

Lemma X13_getLine_returns_the_line_witness :
  os.files source_world (assertive.File caller_frame)
  = Some (os.mkfile test_source true true)
  /\ 1 <= assertive.Line caller_frame
       <= Z.of_nat (strings.Count test_source "010"%char) + 1
  /\ exists line w',
       assertive.getLine (assertive.mkfakeT [] false) (Some caller_frame)
         source_world
       = Some (line, assertive.mkfakeT [] false, w')
       /\ index (strings.Split test_source "010"%char)
                (assertive.Line caller_frame - 1) = Some line
       /\ line = want_line.
Proof.
  assert (Hl : 1 <= assertive.Line caller_frame
                 <= Z.of_nat (strings.Count test_source "010"%char) + 1)
    by (vm_compute; split; discriminate).
  split; [reflexivity|]. split; [exact Hl|].
  destruct (proj1 (X13_getLine_returns_the_line
                     (assertive.mkfakeT [] false) caller_frame source_world
                     (os.mkfile test_source true true) eq_refl eq_refl) Hl)
    as [line [w' [HG [HI _]]]].
  exists line, w'. split; [exact HG|]. split; [exact HI|].
  cbv in HI. injection HI as <-. reflexivity.
Defined.

(** X14: on the recording [fakeT], [Want] and [Need] with a condition that
    holds report nothing, read no file and leave the [fakeT] as it is; with
    a condition that fails, the frame of the caller naming a readable source
    file with that many lines, each logs exactly that source line, once,
    [Want] leaving the stop flag as it was and [Need] setting it. *)
Theorem X14_Want_and_Need_on_fakeT (ft : assertive.fakeT) (w : os.World) :
  (forall caller,
      assertive.Want ft true caller w = Some (ft, w)
      /\ assertive.Need ft true caller w = Some (ft, w))
  /\ (forall frame f,
         os.files w (assertive.File frame) = Some f ->
         os.readable f = true ->
         1 <= assertive.Line frame
           <= Z.of_nat (strings.Count (os.data f) "010"%char) + 1 ->
         exists line w',
           index (strings.Split (os.data f) "010"%char)
                 (assertive.Line frame - 1) = Some line
           /\ assertive.Want ft false (Some frame) w
              = Some (assertive.mkfakeT (assertive.logs ft ++ [line])
                        (assertive.stop ft), w')
           /\ assertive.Need ft false (Some frame) w
              = Some (assertive.mkfakeT (assertive.logs ft ++ [line]) true, w')
           /\ os.files w' = os.files w).
Proof.
  split; [intros caller; split; reflexivity|].
  intros frame f Hf Hr Hl.
  destruct (SplitN_line (os.data f) _ Hl) as [l [H1 H2]].
  exists l. eexists. split; [exact H2|].
  unfold assertive.Want, assertive.Need. cbn [negb assertive.Helper assertive.fakeT_miniT].
  rewrite (getLine_of_frame ft frame w f Hf Hr), H1.
  cbn. repeat split.
Qed.

Lemma X14_Want_and_Need_on_fakeT_witness :
  os.files source_world (assertive.File caller_frame)
  = Some (os.mkfile test_source true true)
  /\ 1 <= assertive.Line caller_frame
       <= Z.of_nat (strings.Count test_source "010"%char) + 1
  /\ exists line w',
       assertive.Want (assertive.mkfakeT [] false) false (Some caller_frame)
         source_world
       = Some (assertive.mkfakeT ([] ++ [line]) false, w')
       /\ assertive.Need (assertive.mkfakeT [] false) false
            (Some caller_frame) source_world
          = Some (assertive.mkfakeT ([] ++ [line]) true, w')
       /\ line = want_line.
Proof.
  assert (Hl : 1 <= assertive.Line caller_frame
                 <= Z.of_nat (strings.Count test_source "010"%char) + 1)
    by (vm_compute; split; discriminate).
  split; [reflexivity|]. split; [exact Hl|].
  destruct (proj2 (X14_Want_and_Need_on_fakeT
                     (assertive.mkfakeT [] false) source_world)
              caller_frame (os.mkfile test_source true true)
              eq_refl eq_refl Hl)
    as [line [w' [HI [HW [HN _]]]]].
  exists line, w'. split; [exact HW|]. split; [exact HN|].
  cbv in HI. injection HI as <-. reflexivity.
Defined.

(** ** The store and its file, with separator-free texts *)

(** X15: [Open] and every [Insert] (the no-op apart), [Update] and [Delete]
    that succeeds leave the backing file holding the records joined by the
    separator.  Whenever the file holds them and no record has a separator,
    a backing file that is not empty has one separator less than the store
    has records, a store without records has a backing file of zero bytes,
    and a backing file of zero bytes belongs to a store without records or
    with the single empty record. *)
Theorem X15_store_and_file_with_separator_free_texts (db : Database)
    (w : os.World) :
  (forall path w0, Open path w0 = (Some db, None, w) ->
     consistent db w /\ Forall no_separator (records db))
  /\ (forall db0 w0 number text,
         (~ (Length db0 = 0 /\ text = EmptyString)
          /\ Insert db0 number text w0 = Some (None, db, w))
         \/ (exists old, Update db0 number text w0 = Some ((old, None), db, w))
         \/ (exists old, Delete db0 number w0 = Some ((old, None), db, w)) ->
         consistent db w)
  /\ (consistent db w ->
      Forall no_separator (records db) ->
      os.content w (filePath db) = Some (strings.Join (records db) sep)
      /\ (strings.Join (records db) sep <> EmptyString ->
          Length db
          = Z.of_nat (strings.Count (strings.Join (records db) sep) sep) + 1)
      /\ (Length db = 0 -> os.content w (filePath db) = Some EmptyString)
      /\ (os.content w (filePath db) = Some EmptyString ->
          records db = [] \/ records db = [EmptyString])).
Proof.
  split; [|split].
  - intros path w0 HO. split; [exact (Open_consistent _ _ _ _ HO)|].
    apply Open_cases in HO as [buf [_ [-> _]]]. apply decode_no_separator.
  - intros db0 w0 number text [[Hnoop HI]|[[old HU]|[old HD]]].
    + destruct (Insert_committed _ _ _ _ _ _ Hnoop HI) as [pre [suf [_ C]]].
      exact (committed_consistent _ _ _ _ C).
    + destruct (Update_success _ _ _ _ _ _ _ HU) as [pre [suf [_ [_ C]]]].
      exact (committed_consistent _ _ _ _ C).
    + destruct (Delete_success _ _ _ _ _ _ HD) as [pre [suf [_ [_ C]]]].
      exact (committed_consistent _ _ _ _ C).
  - intros Hc Hs. split; [exact Hc|]. split; [|split].
    + intros Hne. rewrite Count_Join by exact Hs.
      unfold Length, len. destruct (records db); [now elim Hne|].
      cbn [List.length pred]. lia.
    + intros Hl. exact (empty_store_empty_file db w Hc Hl).
    + intros He. unfold consistent in Hc. rewrite Hc in He.
      injection He as He.
      exact (Join_empty_string sep (records db) He).
Qed.

Lemma X15_store_and_file_with_separator_free_texts_witness :
  Open "db" (world_of two_lines)
  = (Some (db_of two_lines), None, opened two_lines)
  /\ consistent (db_of two_lines) (opened two_lines)
  /\ Forall no_separator (records (db_of two_lines))
  /\ os.content (opened two_lines) (filePath (db_of two_lines))
     = Some (strings.Join (records (db_of two_lines)) sep)
  /\ Length (db_of two_lines)
     = Z.of_nat (strings.Count
                   (strings.Join (records (db_of two_lines)) sep) sep) + 1.
Proof.
  assert (HO : Open "db" (world_of two_lines)
               = (Some (db_of two_lines), None, opened two_lines))
    by reflexivity.
  destruct (X15_store_and_file_with_separator_free_texts
              (db_of two_lines) (opened two_lines)) as [H1 [_ H3]].
  destruct (H1 _ _ HO) as [Hc Hs].
  destruct (H3 Hc Hs) as [H4 [H5 _]].
  split; [exact HO|]. split; [exact Hc|]. split; [exact Hs|].
  split; [exact H4|]. apply H5. discriminate.
Defined.
